(** Acadexis agent planner: a shallow embedding of the agent classes
    (agent_planner/agents: types.ts, baseAgent.ts, the five role agents,
    index.ts) and of the orchestrator flow [handleTask] of the framework
    template (AI_DEV_TEAM_FRAMEWORK_TEMPLATE.md, section 7), with the
    properties the specification states about them.

    What the repository leaves undefined (the run state record, the stores,
    the router, the engine's state update) is either a parameter of the
    flow or a definition marked as modelled from the specification. *)

From Stdlib Require Import ZArith Lia.
From stdpp Require Import base option list strings gmap.

Local Open Scope string_scope.

(** * Errors and results

    A JavaScript [throw new Error(msg)] (and a rejected promise of an
    [async] method) is the [Throw] result; the named failures of the
    specification's taxonomy are constructors of their own. *)

Inductive Error : Type :=
| JsError (message : string)
| NoMatchingWorkflow
| PartialAppendFailure
| UnknownStep (stepId : string)
| OutOfFuel.

Inductive Result (A : Type) : Type :=
| Ok (a : A)
| Throw (e : Error).
Arguments Ok {A} a.
Arguments Throw {A} e.

Definition isOk {A} (r : Result A) : bool :=
  match r with Ok _ => true | Throw _ => false end.

(** * agents/types.ts *)

Inductive AgentRole : Type := Planner | Architect | Coder | Reviewer | Ops.

#[global] Instance AgentRole_eq_dec : EqDecision AgentRole.
Proof. solve_decision. Defined.

(** The string literal behind each member of the [AgentRole] union. *)
Definition roleName (r : AgentRole) : string :=
  match r with
  | Planner => "planner"
  | Architect => "architect"
  | Coder => "coder"
  | Reviewer => "reviewer"
  | Ops => "ops"
  end.

Definition allRoles : list AgentRole := [Planner; Architect; Coder; Reviewer; Ops].

Record AgentRef : Type := mkAgentRef {
  ref_id : string;
  ref_role : AgentRole
}.

Record Task : Type := mkTask {
  task_id : string;
  projectId : string;
  task_type : string;
  title : string;
  description : string;
  source : option string;
  metadata : option (gmap string string)
}.

(** [content: unknown] is an opaque payload; it is kept as a string. *)
Record Artifact : Type := mkArtifact {
  artifact_id : string;
  taskId : string;
  artifactType : string;
  content : string;
  createdBy : AgentRef;
  createdAt : string
}.

Record Repo : Type := mkRepo {
  host : string;
  owner : string;
  repo_name : string;
  defaultBranch : option string
}.

(** The optional maps of a project ([commands], [paths], [workflows],
    [standards]) are empty when the property is absent. *)
Record ProjectConfig : Type := mkProjectConfig {
  project_id : string;
  repo : option Repo;
  commands : gmap string string;
  paths : gmap string string;
  workflows : gmap string string;
  project_standards : gmap string string
}.

(** The tool registry and the logger are interfaces without data of their
    own; the context keeps the identifiers of the registered tools. *)
Record ExecutionContext : Type := mkExecutionContext {
  ctx_projectId : string;
  projectConfig : ProjectConfig;
  tools : list string;
  standards : gmap string string
}.

Record AgentInput : Type := mkAgentInput {
  task : Task;
  artifacts : list Artifact;
  context : ExecutionContext
}.

Inductive NextAction : Type := Continue | Handoff | Done | NeedsHuman.

(** [handoffTo?: AgentRef | string] *)
Inductive HandoffTarget : Type :=
| ToAgent (ref : AgentRef)
| ToStep (stepId : string).

Record AgentOutput : Type := mkAgentOutput {
  newArtifacts : list Artifact;
  nextAction : NextAction;
  handoffTo : option HandoffTarget
}.

Record AgentSpec : Type := mkAgentSpec {
  spec_name : string;
  spec_role : string;
  spec_description : string;
  spec_input : gmap string string;
  spec_output : string;
  tools_available : option (list string);
  validation_rules : option (list string);
  handoff_criteria : option string;
  failure_handling : option (list string)
}.

Record WorkflowHandoff : Type := mkWorkflowHandoff {
  sequence : option (list string);
  failure_loops : option (gmap string string)
}.

Record AgentsSpecsFile : Type := mkAgentsSpecsFile {
  agents : gmap string AgentSpec;
  workflow_handoff : option WorkflowHandoff
}.

(** * agents/baseAgent.ts

    An agent object: the three fields the constructor sets and the [run]
    method of its class. *)

Record BaseAgent : Type := mkBaseAgent {
  id : string;
  role : AgentRole;
  spec : AgentSpec;
  run : AgentInput -> Result AgentOutput
}.

Definition makeRef (this : BaseAgent) : AgentRef :=
  {| ref_id := id this; ref_role := role this |}.

(** * The five role agents: [super(<role>, <role> as AgentRole, spec)] and
    a [run] that throws. *)

Definition PlannerAgent (spec : AgentSpec) : BaseAgent :=
  {| id := "planner"; role := Planner; spec := spec;
     run := fun _ => Throw (JsError
       "PlannerAgent.run is not implemented. Integrate with your LLM/orchestrator here.") |}.

Definition ArchitectAgent (spec : AgentSpec) : BaseAgent :=
  {| id := "architect"; role := Architect; spec := spec;
     run := fun _ => Throw (JsError
       "ArchitectAgent.run is not implemented. Integrate with your LLM/orchestrator here.") |}.

Definition CoderAgent (spec : AgentSpec) : BaseAgent :=
  {| id := "coder"; role := Coder; spec := spec;
     run := fun _ => Throw (JsError
       "CoderAgent.run is not implemented. Integrate with your LLM/orchestrator here.") |}.

Definition ReviewerAgent (spec : AgentSpec) : BaseAgent :=
  {| id := "reviewer"; role := Reviewer; spec := spec;
     run := fun _ => Throw (JsError
       "ReviewerAgent.run is not implemented. Integrate with your LLM/orchestrator here.") |}.

Definition OpsAgent (spec : AgentSpec) : BaseAgent :=
  {| id := "ops"; role := Ops; spec := spec;
     run := fun _ => Throw (JsError
       "OpsAgent.run is not implemented. Integrate with your LLM/orchestrator here.") |}.

(** * agents/index.ts *)

(** [Record<AgentRole, BaseAgent>]: an object with one property per role. *)
Record AgentMap : Type := mkAgentMap {
  planner : BaseAgent;
  architect : BaseAgent;
  coder : BaseAgent;
  reviewer : BaseAgent;
  ops : BaseAgent
}.

(** [createAgentsFromSpecs(specs = loadAgentSpecs())]: the default argument
    reads agent_specs.json, which the sources do not include; the
    definitions are the argument [specs]. *)
Definition createAgentsFromSpecs (specs : AgentsSpecsFile) : Result AgentMap :=
  let plannerSpec := agents specs !! "planner" in
  let architectSpec := agents specs !! "architect" in
  let coderSpec := agents specs !! "coder" in
  let reviewerSpec := agents specs !! "reviewer" in
  let opsSpec := agents specs !! "ops" in
  match plannerSpec, architectSpec, coderSpec, reviewerSpec, opsSpec with
  | Some plannerSpec, Some architectSpec, Some coderSpec, Some reviewerSpec, Some opsSpec =>
      Ok {| planner := PlannerAgent plannerSpec;
            architect := ArchitectAgent architectSpec;
            coder := CoderAgent coderSpec;
            reviewer := ReviewerAgent reviewerSpec;
            ops := OpsAgent opsSpec |}
  | _, _, _, _, _ =>
      Throw (JsError "agent_specs.json is missing one or more required agent definitions.")
  end.

(** The property read [agentMap[role]]; the template calls it
    [getAgentByRole(step.agentRole)]. *)
Definition getAgentByRole (m : AgentMap) (r : AgentRole) : BaseAgent :=
  match r with
  | Planner => planner m
  | Architect => architect m
  | Coder => coder m
  | Reviewer => reviewer m
  | Ops => ops m
  end.

(** The agents held by a map, in the order of the object literal. *)
Definition agentsOf (m : AgentMap) : list BaseAgent :=
  [planner m; architect m; coder m; reviewer m; ops m].

(** * Framework template, section 3: workflow schema *)

(** [NextStepDecision.status]: the four literals of the template. *)
Inductive DecisionStatus : Type :=
| DInProgress | DBlocked | DWaitingHuman | DCompleted.

Record NextStepDecision : Type := mkDecision {
  nextStepId : option string;
  decision_status : DecisionStatus
}.

Record WorkflowStep : Type := mkStep {
  step_id : string;
  step_name : string;
  agentRole : AgentRole;
  inputSelector : Task -> list Artifact -> AgentInput;
  transition : AgentOutput -> NextStepDecision
}.

Record Workflow : Type := mkWorkflow {
  workflow_id : string;
  workflow_name : string;
  applicableTaskTypes : list string;
  steps : list WorkflowStep
}.

(** [workflow.steps[state.currentStepId]]: the step with that identifier. *)
Definition lookupStep (wf : Workflow) (stepId : string) : option WorkflowStep :=
  find (fun s => String.eqb (step_id s) stepId) (steps wf).

(** The artifact type tags of the template's [Artifact.type] union; in
    types.ts the field is [artifactType: string]. *)
Definition templateArtifactTypes : list string :=
  ["spec"; "design"; "plan"; "patch"; "pr"; "review"; "deployment"; "log"; "note"].

(** The closed set the specification names. *)
Definition specArtifactTypes : list string :=
  ["spec"; "design"; "patch"; "review"; "deployment"; "note"; "log"].

(** * Run state *)

(** Modelled from the spec: the status of a RunState (section 3).  The
    template has no declaration of the run state, it only reads
    [state.status] and [state.currentStepId]; the decisions of the template
    carry four of these five values. *)
Inductive RunStatus : Type :=
| in_progress | blocked | waiting_human | completed | failed.

#[global] Instance RunStatus_eq_dec : EqDecision RunStatus.
Proof. solve_decision. Defined.

Definition statusOf (s : DecisionStatus) : RunStatus :=
  match s with
  | DInProgress => in_progress
  | DBlocked => blocked
  | DWaitingHuman => waiting_human
  | DCompleted => completed
  end.

(** Modelled from the spec: the faults of the Agent Dispatcher (section
    4.3); an error thrown by a worker is an execution fault. *)
Inductive Fault : Type :=
| Timeout
| InvalidOutput
| ExecutionFault (e : Error).

(** Modelled from the spec: the outcome kept in a history entry (sections
    4.2, 7 and 8: advance, completion, halt, retry, escalation, handoff
    mismatch). *)
Inductive Outcome : Type :=
| Advanced (next : string)
| Completed
| Halted (s : RunStatus)
| Stayed (s : RunStatus)
| Retried (cause : option Fault)
| RetryBudgetExceeded (cause : option Fault)
| UnknownHandoffTarget (target : AgentRole).

(** Modelled from the spec: the RunState record (section 3).  An entry of
    the history is a step identifier with its outcome, in order of
    occurrence (the position in the list stands for the timestamp); a step
    without an entry in [retries] has not been retried. *)
Record RunState : Type := mkRunState {
  run_taskId : string;
  workflowId : string;
  currentStepId : string;
  status : RunStatus;
  history : list (string * Outcome);
  retries : gmap string Z
}.

Definition retryCount (st : RunState) (stepId : string) : Z :=
  default 0%Z (retries st !! stepId).

Definition setStatus (s : RunStatus) (st : RunState) : RunState :=
  {| run_taskId := run_taskId st; workflowId := workflowId st;
     currentStepId := currentStepId st; status := s;
     history := history st; retries := retries st |}.

Definition setCurrentStep (stepId : string) (st : RunState) : RunState :=
  {| run_taskId := run_taskId st; workflowId := workflowId st;
     currentStepId := stepId; status := status st;
     history := history st; retries := retries st |}.

Definition setRetry (stepId : string) (c : Z) (st : RunState) : RunState :=
  {| run_taskId := run_taskId st; workflowId := workflowId st;
     currentStepId := currentStepId st; status := status st;
     history := history st; retries := <[stepId := c]> (retries st) |}.

(** A history entry is recorded against the step that was current. *)
Definition record (o : Outcome) (st : RunState) : RunState :=
  {| run_taskId := run_taskId st; workflowId := workflowId st;
     currentStepId := currentStepId st; status := status st;
     history := history st ++ [(currentStepId st, o)]; retries := retries st |}.

(** Modelled from the spec: a fresh RunState bound to a workflow (section
    4.5) starts in progress at the first step, with an empty history and
    no retries. *)
Definition initialStepId (wf : Workflow) : string :=
  match steps wf with
  | [] => ""
  | s :: _ => step_id s
  end.

Definition freshRunState (taskId : string) (wf : Workflow) : RunState :=
  {| run_taskId := taskId; workflowId := workflow_id wf;
     currentStepId := initialStepId wf; status := in_progress;
     history := []; retries := ∅ |}.

(** * Artifact Store

    The template only names the call [persistArtifacts(output.newArtifacts)];
    the store itself is the one of the specification (section 4.4), keyed
    by task. *)

Module ArtifactStore.

(** Modelled from the spec: the artifacts stored for a task, none for a
    task never appended to. *)
Definition ofTask (store : gmap string (list Artifact)) (taskId : string)
  : list Artifact :=
  default [] (store !! taskId).

(** Modelled from the spec: the Artifact Store's all-or-nothing append
    (section 4.4), which the repository does not contain.  The artifacts of
    a batch are written one after the other into a staged copy of the
    task's sequence; [writeOk] tells which single writes succeed, so that a
    failure partway through a batch can be simulated. *)
Fixpoint stage (writeOk : Artifact -> bool) (staged batch : list Artifact)
  : option (list Artifact) :=
  match batch with
  | [] => Some staged
  | a :: rest =>
      if writeOk a then stage writeOk (staged ++ [a]) rest else None
  end.

(** Modelled from the spec: [append(taskId, artifacts)] (section 4.4)
    publishes the staged copy only when every write went through. *)
Definition append (writeOk : Artifact -> bool) (taskId : string)
    (batch : list Artifact) (store : gmap string (list Artifact))
  : gmap string (list Artifact) * Result unit :=
  match stage writeOk (ofTask store taskId) batch with
  | Some staged => (<[taskId := staged]> store, Ok tt)
  | None => (store, Throw PartialAppendFailure)
  end.

(** Modelled from the spec: [listByTask] (section 4.4) is ordered by
    creation time ascending (a stable insertion sort on [createdAt]). *)
Fixpoint insertByCreation (a : Artifact) (l : list Artifact) : list Artifact :=
  match l with
  | [] => [a]
  | b :: rest =>
      if String.ltb (createdAt a) (createdAt b) then a :: b :: rest
      else b :: insertByCreation a rest
  end.

Definition sortByCreation (l : list Artifact) : list Artifact :=
  foldl (fun sorted a => insertByCreation a sorted) [] l.

Definition listByTask (store : gmap string (list Artifact)) (taskId : string)
  : list Artifact :=
  sortByCreation (ofTask store taskId).

(** Modelled from the spec: [latestOfType] (section 4.4).  [a] wins over
    [b] with a later timestamp, ties broken by the smaller artifact
    identifier. *)
Definition supersedes (a b : Artifact) : bool :=
  match String.compare (createdAt a) (createdAt b) with
  | Gt => true
  | Lt => false
  | Eq => String.ltb (artifact_id a) (artifact_id b)
  end.

Definition latestOfType (store : gmap string (list Artifact))
    (taskId type : string) : option Artifact :=
  foldl (fun best a =>
           match best with
           | None => Some a
           | Some b => if supersedes a b then Some a else Some b
           end)
        None
        (List.filter (fun a => String.eqb (artifactType a) type)
                     (listByTask store taskId)).

End ArtifactStore.

(** * Task Router

    The template calls [selectWorkflow(task, projectConfig)] and leaves it
    as an extension point. *)

Module Router.

(** Modelled from the spec: a definition matches a task when its
    applicable task types contain the type of the task (section 4.1). *)
Definition applies (t : Task) (d : Workflow) : bool :=
  existsb (String.eqb (task_type t)) (applicableTaskTypes d).

(** Modelled from the spec: the fixed deterministic ordering of section
    4.1, the definition with the least identifier. *)
Definition firstById (l : list Workflow) : option Workflow :=
  foldr (fun d best =>
           match best with
           | None => Some d
           | Some b =>
               if String.leb (workflow_id d) (workflow_id b) then Some d else Some b
           end)
        None l.

(** Modelled from the spec: [selectWorkflow] (section 4.1), which the
    repository does not define.  [preferred] is the workflow identifier the
    project configuration names for the type of the task, if any; it wins
    when it names a matching definition. *)
Definition selectWorkflow (t : Task) (availableDefinitions : list Workflow)
    (preferred : option string) : Result Workflow :=
  let matching := List.filter (applies t) availableDefinitions in
  let named :=
    match preferred with
    | Some wid => find (fun d => String.eqb (workflow_id d) wid) matching
    | None => None
    end in
  match named with
  | Some d => Ok d
  | None =>
      match firstById matching with
      | Some d => Ok d
      | None => Throw NoMatchingWorkflow
      end
  end.

End Router.

(** * The state update of the engine

    The template hands the decision of a step to
    [updateState(taskId, decision)] and does not define that function; the
    definitions below are the update the specification describes (section
    4.2, steps 6 to 9).  The configured per-step retry maximum is not a
    field of the template's WorkflowStep; it is the parameter [maxRetries],
    a number of retries. *)

Module Engine.

(** Modelled from the spec: step 8 of section 4.2, shared with the
    failure semantics; the current step is to be run again.  The counter is incremented; if it would exceed the
    maximum it stays capped and the run waits for a human. *)
Definition repeatStep (max : Z) (requested : RunStatus) (cause : option Fault)
    (st : RunState) : RunState :=
  let c := (retryCount st (currentStepId st) + 1)%Z in
  if (max <? c)%Z
  then record (RetryBudgetExceeded cause) (setStatus waiting_human st)
  else record (Retried cause)
              (setStatus requested (setRetry (currentStepId st) c st)).

(** Modelled from the spec: steps 6 to 9 of section 4.2, the state update
    the template calls [updateState].  A decision without a next step that does not complete
    the run is outside the cases the specification lists: the run keeps
    its step and takes the requested status. *)
Definition applyDecision (max : Z) (d : NextStepDecision) (st : RunState)
  : RunState :=
  match decision_status d with
  | DWaitingHuman => record (Halted waiting_human) (setStatus waiting_human st)
  | DBlocked => record (Halted blocked) (setStatus blocked st)
  | s =>
      match nextStepId d with
      | None =>
          match s with
          | DCompleted => record Completed (setStatus completed st)
          | _ => record (Stayed (statusOf s)) (setStatus (statusOf s) st)
          end
      | Some next =>
          if String.eqb next (currentStepId st)
          then repeatStep max (statusOf s) None st
          else setCurrentStep next
                 (record (Advanced next) (setStatus (statusOf s) st))
      end
  end.

(** Modelled from the spec: the template's [updateState(taskId, decision)],
    which the repository does not define, as steps 6 to 9 of section 4.2
    with the maximum configured for the current step of the run.  A run
    whose current step is not in the workflow is left as it is. *)
Definition updateState (wf : Workflow) (maxRetries : WorkflowStep -> nat)
    (st : RunState) (d : NextStepDecision) : RunState :=
  match lookupStep wf (currentStepId st) with
  | Some step => applyDecision (Z.of_nat (maxRetries step)) d st
  | None => st
  end.

(** A repeat edge at the run [st]: the decision names the current step and
    does not itself ask to halt (those decisions fall under step 6). *)
Definition repeatEdge (st : RunState) (d : NextStepDecision) : Prop :=
  nextStepId d = Some (currentStepId st) /\
  decision_status d <> DWaitingHuman /\
  decision_status d <> DBlocked.

(** Modelled from the spec: some step of the workflow has the role. *)
Definition hasStepWithRole (wf : Workflow) (r : AgentRole) : bool :=
  existsb (fun s => bool_decide (agentRole s = r)) (steps wf).

(** The retry counters of the steps of the workflow are non-negative and
    within the configured maxima. *)
Definition withinBudget (wf : Workflow) (maxRetries : WorkflowStep -> nat)
    (st : RunState) : Prop :=
  forall sid step,
    lookupStep wf sid = Some step ->
    (0 <= retryCount st sid <= Z.of_nat (maxRetries step))%Z.

End Engine.

(** * Framework template, section 7: the orchestrator flow

    The stores and the agent registry the flow works on.  [events] is a
    record of what the flow did (worker invocations, artifact batches handed
    to the store, transitions applied); it exists only to state properties
    and nothing in the flow reads it. *)

Inductive Event : Type :=
| WorkerInvoked (stepId : string) (r : AgentRole)
| ArtifactsPersisted (batch : list Artifact)
| TransitionApplied (stepId : string) (d : NextStepDecision).

Record World : Type := mkWorld {
  runs : gmap string RunState;
  artifactStore : gmap string (list Artifact);
  registry : AgentMap;
  events : list Event
}.

Definition setRuns (r : gmap string RunState) (w : World) : World :=
  {| runs := r; artifactStore := artifactStore w;
     registry := registry w; events := events w |}.

Definition setArtifactStore (s : gmap string (list Artifact)) (w : World) : World :=
  {| runs := runs w; artifactStore := s;
     registry := registry w; events := events w |}.

Definition logEvent (e : Event) (w : World) : World :=
  {| runs := runs w; artifactStore := artifactStore w;
     registry := registry w; events := events w ++ [e] |}.

(** [state.status not in ["completed", "waiting_human"]] *)
Definition loopGuard (s : RunStatus) : bool :=
  negb (bool_decide (s = completed) || bool_decide (s = waiting_human)).

(** Modelled from the spec: [initOrLoad] of the Run State Store (section
    4.5), the template's [loadOrInitWorkflowState(taskId, workflow)].  A
    fresh RunState is created if the task has none; an existing run is
    never bound to another workflow. *)
Definition loadOrInitWorkflowState (taskId : string) (wf : Workflow) (w : World)
  : World * Result RunState :=
  match runs w !! taskId with
  | Some st =>
      if String.eqb (workflowId st) (workflow_id wf) then (w, Ok st)
      else (w, Throw (JsError "run is bound to another workflow"))
  | None =>
      let st := freshRunState taskId wf in
      (setRuns (<[taskId := st]> (runs w)) w, Ok st)
  end.

Section Orchestrator.

(** The extension points the template names without defining them. *)
Variable loadTask : string -> Result Task.
Variable loadProjectConfig : string -> Result ProjectConfig.
Variable availableDefinitions : list Workflow.
Variable selectArtifactsForStep :
  WorkflowStep -> Task -> gmap string (list Artifact) -> list Artifact.
Variable buildExecutionContext : ProjectConfig -> ExecutionContext.
Variable writeOk : Artifact -> bool.
Variable updateState : RunState -> NextStepDecision -> RunState.

(** The second half of the loop body: what is done with the output the
    agent returned ([persistArtifacts], [step.transition], [updateState]). *)
Definition applyOutput (step : WorkflowStep) (tid : string) (w1 : World)
    (state : RunState) (output : AgentOutput) : World * Result unit :=
  match ArtifactStore.append writeOk tid (newArtifacts output)
                             (artifactStore w1) with
  | (_, Throw e) => (w1, Throw e)
  | (store, Ok _) =>
      let w2 := logEvent (ArtifactsPersisted (newArtifacts output))
                         (setArtifactStore store w1) in
      let decision := transition step output in
      let w3 := setRuns (<[tid := updateState state decision]> (runs w2)) w2 in
      (logEvent (TransitionApplied (step_id step) decision) w3, Ok tt)
  end.

(** The body of the [while] loop, for the state read at the loop head. *)
Definition loopBody (t : Task) (pc : ProjectConfig) (wf : Workflow)
    (tid : string) (w : World) (state : RunState) : World * Result unit :=
  match lookupStep wf (currentStepId state) with
  | None => (w, Throw (JsError "workflow has no such step"))
  | Some step =>
      let inputArtifacts := selectArtifactsForStep step t (artifactStore w) in
      let agent := getAgentByRole (registry w) (agentRole step) in
      let agentInput :=
        {| task := t; artifacts := inputArtifacts;
           context := buildExecutionContext pc |} in
      let w1 := logEvent (WorkerInvoked (step_id step) (agentRole step)) w in
      match run agent agentInput with
      | Throw e => (w1, Throw e)
      | Ok output => applyOutput step tid w1 state output
      end
  end.

(** The [while] loop.  [state] is the stored object, so every test of the
    guard reads the run state of the task from the store. *)
Fixpoint loop (t : Task) (pc : ProjectConfig) (wf : Workflow) (tid : string)
    (fuel : nat) (w : World) {struct fuel} : World * Result RunState :=
  match runs w !! tid with
  | None => (w, Throw (JsError "run state is undefined"))
  | Some state =>
      if loopGuard (status state) then
        match fuel with
        | O => (w, Throw OutOfFuel)
        | S fuel' =>
            match loopBody t pc wf tid w state with
            | (w', Ok _) => loop t pc wf tid fuel' w'
            | (w', Throw e) => (w', Throw e)
            end
        end
      else (w, Ok state)
  end.

Definition handleTask (fuel : nat) (tid : string) (w : World)
  : World * Result RunState :=
  match loadTask tid with
  | Throw e => (w, Throw e)
  | Ok t =>
      match loadProjectConfig (projectId t) with
      | Throw e => (w, Throw e)
      | Ok pc =>
          match Router.selectWorkflow t availableDefinitions
                  (workflows pc !! task_type t) with
          | Throw e => (w, Throw e)
          | Ok wf =>
              match loadOrInitWorkflowState tid wf w with
              | (w0, Throw e) => (w0, Throw e)
              | (w0, Ok _) => loop t pc wf tid fuel w0
              end
          end
      end
  end.

End Orchestrator.

(** The loop stops at a run whose status is [s]: whatever the extension
    points and the fuel, it returns the run as it is and leaves the stores,
    the registry and the record of events untouched. *)
Definition stopsAt (s : RunStatus) : Prop :=
  forall selectArtifactsForStep buildExecutionContext writeOk updateState
         t pc wf tid fuel w state,
    runs w !! tid = Some state ->
    status state = s ->
    loop selectArtifactsForStep buildExecutionContext writeOk updateState
         t pc wf tid fuel w = (w, Ok state).

(** * Sample configurations

    Concrete inputs on which the definitions above are run. *)

Definition sampleSpec (r : AgentRole) : AgentSpec :=
  {| spec_name := roleName r; spec_role := roleName r;
     spec_description := "role agent"; spec_input := ∅; spec_output := "artifact";
     tools_available := None; validation_rules := None;
     handoff_criteria := None; failure_handling := None |}.

Definition sampleSpecs : AgentsSpecsFile :=
  {| agents := list_to_map (map (fun r => (roleName r, sampleSpec r)) allRoles);
     workflow_handoff := None |}.

(** agent_specs.json without the definition of the ops agent. *)
Definition specsWithoutOps : AgentsSpecsFile :=
  {| agents := delete "ops" (agents sampleSpecs); workflow_handoff := None |}.

Definition shippedAgents : AgentMap :=
  {| planner := PlannerAgent (sampleSpec Planner);
     architect := ArchitectAgent (sampleSpec Architect);
     coder := CoderAgent (sampleSpec Coder);
     reviewer := ReviewerAgent (sampleSpec Reviewer);
     ops := OpsAgent (sampleSpec Ops) |}.

Definition sampleProject : ProjectConfig :=
  {| project_id := "my-web-app";
     repo := Some {| host := "github"; owner := "my-org"; repo_name := "my-web-app";
                     defaultBranch := Some "main" |};
     commands := {["test" := "npm test"]};
     paths := {["src" := "src/"]};
     workflows := {["default" := "standard-dev-flow"; "bugfix" := "bugfix-fast-flow"]};
     project_standards := ∅ |}.

Definition sampleContext (pc : ProjectConfig) : ExecutionContext :=
  {| ctx_projectId := project_id pc; projectConfig := pc;
     tools := ["codebase"; "command"]; standards := project_standards pc |}.

Definition bugfixTask : Task :=
  {| task_id := "T-1"; projectId := "my-web-app"; task_type := "bugfix";
     title := "Fix login"; description := "Login fails on empty password";
     source := Some "manual"; metadata := None |}.

Definition docsTask : Task :=
  {| task_id := "T-2"; projectId := "my-web-app"; task_type := "docs";
     title := "Write guide"; description := "User guide";
     source := None; metadata := None |}.

Definition sampleInput : AgentInput :=
  {| task := bugfixTask; artifacts := []; context := sampleContext sampleProject |}.

(** An agent a user plugs in at the integration point: it returns a fixed
    output. *)
Definition stubAgent (r : AgentRole) (out : AgentOutput) : BaseAgent :=
  {| id := roleName r; role := r; spec := sampleSpec r; run := fun _ => Ok out |}.

Definition stubAgents (out : AgentRole -> AgentOutput) : AgentMap :=
  {| planner := stubAgent Planner (out Planner);
     architect := stubAgent Architect (out Architect);
     coder := stubAgent Coder (out Coder);
     reviewer := stubAgent Reviewer (out Reviewer);
     ops := stubAgent Ops (out Ops) |}.

Definition artifactBy (r : AgentRole) (aid type stamp : string) : Artifact :=
  {| artifact_id := aid; taskId := "T-1"; artifactType := type;
     content := "payload";
     createdBy := {| ref_id := roleName r; ref_role := r |};
     createdAt := stamp |}.

Definition planArtifact : Artifact :=
  artifactBy Planner "A-1" "plan" "2026-01-01T10:00:00Z".
Definition patchArtifact : Artifact :=
  artifactBy Coder "A-2" "patch" "2026-01-01T11:00:00Z".
Definition noteArtifact : Artifact :=
  artifactBy Coder "A-3" "note" "2026-01-01T11:00:01Z".
Definition reviewArtifact : Artifact :=
  artifactBy Reviewer "A-4" "review" "2026-01-01T12:00:00Z".

(** A transition rule of the usual shape: go on to [next] (or complete
    when there is none), complete on [done], wait on [needs_human]. *)
Definition advanceOrStop (self : string) (next : option string)
    (o : AgentOutput) : NextStepDecision :=
  match nextAction o with
  | Done => mkDecision None DCompleted
  | NeedsHuman => mkDecision (Some self) DWaitingHuman
  | Continue | Handoff =>
      match next with
      | Some n => mkDecision (Some n) DInProgress
      | None => mkDecision None DCompleted
      end
  end.

(** The rule of a deployment step: blocked pending human intervention when
    the worker needs a human, complete when it is done, run again
    otherwise. *)
Definition deployOrBlock (self : string) (o : AgentOutput) : NextStepDecision :=
  match nextAction o with
  | Done => mkDecision None DCompleted
  | NeedsHuman => mkDecision None DBlocked
  | Continue | Handoff => mkDecision (Some self) DInProgress
  end.

Definition alwaysRepeat (self : string) (o : AgentOutput) : NextStepDecision :=
  mkDecision (Some self) DInProgress.

Definition mkWorkflowStep (sid name : string) (r : AgentRole)
    (rule : AgentOutput -> NextStepDecision) : WorkflowStep :=
  {| step_id := sid; step_name := name; agentRole := r;
     inputSelector := fun t arts =>
       {| task := t; artifacts := arts; context := sampleContext sampleProject |};
     transition := rule |}.

(** [bugfix-fast-flow] (Plan, Implement, Review). *)
Definition bugfixFastFlow : Workflow :=
  {| workflow_id := "bugfix-fast-flow"; workflow_name := "Bugfix fast flow";
     applicableTaskTypes := ["bugfix"];
     steps :=
       [ mkWorkflowStep "plan" "Plan" Planner (advanceOrStop "plan" (Some "implement"));
         mkWorkflowStep "implement" "Implement" Coder
           (advanceOrStop "implement" (Some "review"));
         mkWorkflowStep "review" "Review" Reviewer (advanceOrStop "review" None) ] |}.

(** [standard-dev-flow] (Plan, Design, Implement, Review, Ops). *)
Definition standardDevFlow : Workflow :=
  {| workflow_id := "standard-dev-flow"; workflow_name := "Standard dev flow";
     applicableTaskTypes := ["bugfix"; "feature"];
     steps :=
       [ mkWorkflowStep "plan" "Plan" Planner (advanceOrStop "plan" (Some "design"));
         mkWorkflowStep "design" "Design" Architect
           (advanceOrStop "design" (Some "implement"));
         mkWorkflowStep "implement" "Implement" Coder
           (advanceOrStop "implement" (Some "review"));
         mkWorkflowStep "review" "Review" Reviewer (advanceOrStop "review" (Some "ops"));
         mkWorkflowStep "ops" "Ops" Ops (deployOrBlock "ops") ] |}.

(** A workflow whose only step always asks to be run again. *)
Definition spinningFlow : Workflow :=
  {| workflow_id := "spinning-flow"; workflow_name := "Spinning flow";
     applicableTaskTypes := ["chore"];
     steps := [ mkWorkflowStep "implement" "Implement" Coder (alwaysRepeat "implement") ] |}.

Definition runAt (wf : Workflow) (stepId : string) (s : RunStatus) : RunState :=
  {| run_taskId := "T-1"; workflowId := workflow_id wf; currentStepId := stepId;
     status := s; history := []; retries := ∅ |}.

Definition worldOf (agentsMap : AgentMap) (st : RunState) : World :=
  {| runs := {[ "T-1" := st ]}; artifactStore := ∅;
     registry := agentsMap; events := [] |}.

Definition allArtifactsOfTask (step : WorkflowStep) (t : Task)
    (store : gmap string (list Artifact)) : list Artifact :=
  ArtifactStore.listByTask store (task_id t).

Definition everyWriteOk (a : Artifact) : bool := true.

(** [updateState] as the specification describes it, with one retry
    maximum for all steps. *)
Definition updateStateWith (max : Z) (st : RunState) (d : NextStepDecision)
  : RunState :=
  Engine.applyDecision max d st.

(** Writes of "note" artifacts fail. *)
Definition noteWriteFails (a : Artifact) : bool :=
  negb (String.eqb (artifactType a) "note").

(** A planner that returns a "plan" artifact and asks to continue. *)
Definition planningAgents : AgentMap :=
  stubAgents (fun _ => {| newArtifacts := [planArtifact];
                          nextAction := Continue; handoffTo := None |}).

Definition loadSampleTask (tid : string) : Result Task :=
  if String.eqb tid "T-1" then Ok bugfixTask
  else if String.eqb tid "T-2" then Ok docsTask
  else Throw (JsError "no such task").

Definition loadSampleProject (pid : string) : Result ProjectConfig :=
  if String.eqb pid "my-web-app" then Ok sampleProject
  else Throw (JsError "no such project").

Definition sampleDefinitions : list Workflow := [standardDevFlow; bugfixFastFlow].

Definition emptyWorld (agentsMap : AgentMap) : World :=
  {| runs := ∅; artifactStore := ∅; registry := agentsMap; events := [] |}.

(** An ops worker that needs a human, e.g. because CI failed. *)
Definition opsNeedsHuman : AgentMap :=
  stubAgents (fun _ => {| newArtifacts := []; nextAction := NeedsHuman;
                          handoffTo := None |}).

(** A reviewer that hands off to the ops role. *)
Definition reviewerHandsOffToOps : AgentMap :=
  stubAgents (fun _ => {| newArtifacts := [reviewArtifact]; nextAction := Handoff;
                          handoffTo := Some (ToAgent {| ref_id := "ops"; ref_role := Ops |}) |}).

(** Scenario A: the planner and the coder continue, the reviewer is done. *)
Definition scenarioAgents : AgentMap :=
  stubAgents (fun r =>
    match r with
    | Reviewer => {| newArtifacts := [reviewArtifact]; nextAction := Done;
                     handoffTo := None |}
    | Coder => {| newArtifacts := [patchArtifact; noteArtifact];
                  nextAction := Continue; handoffTo := None |}
    | _ => {| newArtifacts := [planArtifact]; nextAction := Continue;
              handoffTo := None |}
    end).

Definition sampleLoop (wf : Workflow) (fuel : nat) (w : World)
  : World * Result RunState :=
  loop allArtifactsOfTask sampleContext everyWriteOk (updateStateWith 2)
       bugfixTask sampleProject wf "T-1" fuel w.

(** Scenario A, run to its end. *)
Definition scenarioAStart : World :=
  worldOf scenarioAgents (runAt bugfixFastFlow "plan" in_progress).

Definition scenarioAEnd : World := fst (sampleLoop bugfixFastFlow 3 scenarioAStart).

Definition storedRun (w : World) : RunState :=
  default (runAt bugfixFastFlow "" failed) (runs w !! "T-1").

(** Every step may be retried twice. *)
Definition twoRetries (step : WorkflowStep) : nat := 2.

(** No step may be retried. *)
Definition noRetries (step : WorkflowStep) : nat := 0.

(** The loop of the template with [updateState] as the specification
    describes it, each step with its own maximum. *)
Definition budgetLoop (wf : Workflow) (maxRetries : WorkflowStep -> nat)
    (fuel : nat) (w : World) : World * Result RunState :=
  loop allArtifactsOfTask sampleContext everyWriteOk
       (Engine.updateState wf maxRetries)
       bugfixTask sampleProject wf "T-1" fuel w.

(** A run of [spinning-flow] whose Implement step has used its two
    retries. *)
Definition exhaustedRun : RunState :=
  {| run_taskId := "T-1"; workflowId := workflow_id spinningFlow;
     currentStepId := "implement"; status := in_progress;
     history := [("implement", Retried None); ("implement", Retried None)];
     retries := {[ "implement" := 2%Z ]} |}.

(** * Further sample configurations *)

(** agent_specs.json with a sixth definition and a handoff section. *)
Definition specsWithExtras : AgentsSpecsFile :=
  {| agents := <["qa" := sampleSpec Reviewer]> (agents sampleSpecs);
     workflow_handoff :=
       Some {| sequence := Some ["planner"; "architect"; "coder"; "reviewer"; "ops"];
               failure_loops := Some {["reviewer" := "coder"]} |} |}.

(** A coder whose call fails. *)
Definition failingCoder : AgentMap :=
  {| planner := stubAgent Planner {| newArtifacts := [planArtifact];
                                     nextAction := Continue; handoffTo := None |};
     architect := ArchitectAgent (sampleSpec Architect);
     coder := CoderAgent (sampleSpec Coder);
     reviewer := ReviewerAgent (sampleSpec Reviewer);
     ops := OpsAgent (sampleSpec Ops) |}.

(** * customize statistics/sql_scripts.sql and the API query: the
    enrollment category

    A column value is [None] when it is NULL.  A comparison with NULL is
    NULL, and a WHEN branch of a CASE is taken only when its condition is
    true. *)

Module Sql.

Definition lt (a : option Z) (b : Z) : option bool :=
  match a with
  | Some x => Some (x <? b)%Z
  | None => None
  end.

Definition gt (a : option Z) (b : Z) : option bool :=
  match a with
  | Some x => Some (b <? x)%Z
  | None => None
  end.

(** [a BETWEEN lo AND hi] is [a >= lo AND a <= hi]. *)
Definition between (a : option Z) (lo hi : Z) : option bool :=
  match a with
  | Some x => Some ((lo <=? x)%Z && (x <=? hi)%Z)
  | None => None
  end.

Definition isTrue (c : option bool) : bool :=
  match c with
  | Some true => true
  | _ => false
  end.

(** The CASE of both queries, up to the three labels. *)
Definition enrollmentCase (small medium large : string) (enrollment : option Z)
  : option string :=
  if isTrue (lt enrollment 5000) then Some small
  else if isTrue (between enrollment 5000 20000) then Some medium
  else if isTrue (gt enrollment 20000) then Some large
  else Some "Unknown".

(** [enrollment_category] of the report query (By Enrollment). *)
Definition enrollment_category : option Z -> option string :=
  enrollmentCase "Small (<5k)" "Medium (5k–20k)" "Large (20k+)".

(** [enrollment_category] of the API query. *)
Definition enrollment_category_api : option Z -> option string :=
  enrollmentCase "Small (<5k Enrollment)" "Medium (5k–20k Enrollment)"
                 "Large (20k+ Enrollment)".

(** [WHERE enrollment_category IS NOT NULL] of [category_medians]. *)
Definition isNotNull (category : option string) : bool :=
  match category with
  | Some _ => true
  | None => false
  end.

End Sql.

(** * The setup script of the salary report generator

    The script works on the entries of its working directory and writes
    lines with [echo].  What it calls and does not define (python3, read,
    pip) is given by [Externals]: the exit status of [python3 --version],
    the line [read] stores in [create_venv], what creating and activating
    the virtual environment does to the directory, and what
    [pip install -r requirements.txt] does to it together with its exit
    status.  [out] collects the lines of the script's own [echo]s. *)

Module Setup.

Inductive Node : Type :=
| File (content : string)
| Dir.

Record Externals : Type := mkExternals {
  pythonStatus : Z;
  create_venv : string;
  venv : gmap string Node -> gmap string Node;
  pip : gmap string Node -> gmap string Node * Z
}.

(** [-f path] *)
Definition isFile (fs : gmap string Node) (path : string) : bool :=
  match fs !! path with
  | Some (File _) => true
  | _ => false
  end.

(** [-d path] *)
Definition isDir (fs : gmap string Node) (path : string) : bool :=
  match fs !! path with
  | Some Dir => true
  | _ => false
  end.

(** [cp src dst] for a plain name [src]: it fails, changing nothing,
    unless [src] is a regular file; into a directory [dst] it writes
    [dst/src], unless that is itself a directory, which makes it fail;
    otherwise it writes [dst], replacing a file that is there. *)
Definition cp (src dst : string) (fs : gmap string Node) : gmap string Node :=
  match fs !! src with
  | Some (File content) =>
      match fs !! dst with
      | Some Dir =>
          match fs !! (dst ++ "/" ++ src) with
          | Some Dir => fs
          | _ => <[dst ++ "/" ++ src := File content]> fs
          end
      | _ => <[dst := File content]> fs
      end
  | _ => fs
  end.

(** [mkdir path]: it fails, changing nothing, if [path] exists. *)
Definition mkdir (path : string) (fs : gmap string Node) : gmap string Node :=
  match fs !! path with
  | None => <[path := Dir]> fs
  | Some _ => fs
  end.

Definition banner : list string :=
  [ "================================================";
    "Acadexis Salary Report Generator - Setup";
    "================================================";
    "" ].

Definition closing : list string :=
  [ "";
    "================================================";
    "Setup Complete!";
    "================================================";
    "";
    "Next steps:";
    "1. Edit config.ini with your PostgreSQL database credentials";
    "2. Set up your PostgreSQL database:";
    "   psql -U postgres -d acadexis_db -f schema.sql";
    "3. (Optional) Place your Acadexis logo in this directory";
    "4. Run the report generator:";
    "   python generate_salary_report.py";
    "";
    "For more information, see README.md";
    "" ].

(** Lines 20 to 29: the virtual environment, on the answer y or Y. *)
Definition venvStep (x : Externals) (fs : gmap string Node)
  : gmap string Node * list string :=
  if String.eqb (create_venv x) "y" || String.eqb (create_venv x) "Y" then
    (venv x fs,
     [ "Creating virtual environment...";
       "Activating virtual environment...";
       "Virtual environment created and activated" ])
  else (fs, []).

(** Lines 46 to 54: the configuration file. *)
Definition configStep (fs : gmap string Node) : gmap string Node * list string :=
  if negb (isFile fs "config.ini") then
    (cp "config.ini.example" "config.ini" fs,
     [ "Creating configuration file...";
       "Config file created: config.ini";
       "IMPORTANT: Edit config.ini with your database credentials" ])
  else (fs, [ "Config file already exists: config.ini" ]).

(** Lines 58 to 65: the reports directory. *)
Definition reportsStep (fs : gmap string Node) : gmap string Node * list string :=
  if negb (isDir fs "reports") then
    (mkdir "reports" fs,
     [ "Creating reports directory..."; "Reports directory created" ])
  else (fs, [ "Reports directory already exists" ]).

(** The directory as the external commands leave it when both checks
    pass. *)
Definition installed (x : Externals) (fs : gmap string Node) : gmap string Node :=
  fst (pip x (fst (venvStep x fs))).

(** The whole script: the directory it leaves, the lines it echoed and its
    exit status. *)
Definition setup (x : Externals) (fs : gmap string Node)
  : gmap string Node * list string * Z :=
  let out := (banner ++ ["Checking Python version..."])%list in
  if negb (pythonStatus x =? 0)%Z then
    (fs, (out ++ ["Error: Python 3 is not installed"])%list, 1%Z)
  else
    let out := (out ++ [""])%list in
    let '(fs1, lines) := venvStep x fs in
    let out := (out ++ lines ++ [""; "Installing Python dependencies..."])%list in
    let '(fs2, status) := pip x fs1 in
    if negb (status =? 0)%Z then
      (fs2, (out ++ ["Error: Failed to install dependencies"])%list, 1%Z)
    else
      let out := (out ++ [""; "Dependencies installed successfully!"; ""])%list in
      let '(fs3, lines) := configStep fs2 in
      let out := (out ++ lines ++ [""])%list in
      let '(fs4, lines) := reportsStep fs3 in
      (fs4, (out ++ lines ++ closing)%list, 0%Z).

(** External commands that succeed and leave the directory alone. *)
Definition quiet (answer : string) : Externals :=
  {| pythonStatus := 0; create_venv := answer;
     venv := fun fs => fs; pip := fun fs => (fs, 0%Z) |}.

End Setup.

(** A checkout with the example configuration and the requirements. *)
Definition freshCheckout : gmap string Setup.Node :=
  {[ "config.ini.example" := Setup.File "[database]";
     "requirements.txt" := Setup.File "psycopg2" ]}.

(** A checkout without the example configuration. *)
Definition checkoutWithoutExample : gmap string Setup.Node :=
  {[ "requirements.txt" := Setup.File "psycopg2" ]}.

(** A directory that has been set up and edited. *)
Definition configuredCheckout : gmap string Setup.Node :=
  {[ "config.ini.example" := Setup.File "[database]";
     "config.ini" := Setup.File "[database] host=db.acadexis";
     "reports" := Setup.Dir ]}.

(** * Properties of the agent classes and of the factory *)

Lemma createAgentsFromSpecs_ok (specs : AgentsSpecsFile) (m : AgentMap) :
  createAgentsFromSpecs specs = Ok m ->
  exists p a c r o,
    agents specs !! "planner" = Some p /\
    agents specs !! "architect" = Some a /\
    agents specs !! "coder" = Some c /\
    agents specs !! "reviewer" = Some r /\
    agents specs !! "ops" = Some o /\
    m = {| planner := PlannerAgent p; architect := ArchitectAgent a;
           coder := CoderAgent c; reviewer := ReviewerAgent r;
           ops := OpsAgent o |}.
Proof.
  unfold createAgentsFromSpecs.
  destruct (agents specs !! "planner") as [p|]; [|discriminate].
  destruct (agents specs !! "architect") as [a|]; [|discriminate].
  destruct (agents specs !! "coder") as [c|]; [|discriminate].
  destruct (agents specs !! "reviewer") as [r|]; [|discriminate].
  destruct (agents specs !! "ops") as [o|]; [|discriminate].
  intros [= <-]. by exists p, a, c, r, o.
Qed.

Lemma sampleSpecs_created : createAgentsFromSpecs sampleSpecs = Ok shippedAgents.
Proof. vm_compute. reflexivity. Qed.

Lemma created_agent_by_role (specs : AgentsSpecsFile) (m : AgentMap) (r : AgentRole) :
  createAgentsFromSpecs specs = Ok m ->
  role (getAgentByRole m r) = r /\
  id (getAgentByRole m r) = roleName r /\
  agents specs !! roleName r = Some (spec (getAgentByRole m r)) /\
  forall input, isOk (run (getAgentByRole m r) input) = false.
Proof.
  intros Hm. apply createAgentsFromSpecs_ok in Hm
    as (p & a & c & rv & o & Hp & Ha & Hc & Hr & Ho & ->).
  destruct r; simpl; auto.
Qed.

Lemma created_agents_listed (m : AgentMap) (a : BaseAgent) :
  In a (agentsOf m) <-> exists r, a = getAgentByRole m r.
Proof.
  unfold agentsOf. simpl. split.
  - intros [<-|[<-|[<-|[<-|[<-|[]]]]]];
      [exists Planner|exists Architect|exists Coder|exists Reviewer|exists Ops];
      reflexivity.
  - intros [[] ->]; simpl; tauto.
Qed.

(** C4: the [run] method of each of the five shipped agents throws for
    every input and returns no AgentOutput; hence, with a registry built by
    [createAgentsFromSpecs], no pass of the orchestrator loop gets an output
    from a worker: the artifact store and the run states stay as they were,
    and the loop returns normally only if it executed nothing. *)
Theorem shipped_agents_always_throw :
  (forall (s : AgentSpec) (input : AgentInput),
     run (PlannerAgent s) input = Throw (JsError
       "PlannerAgent.run is not implemented. Integrate with your LLM/orchestrator here.") /\
     run (ArchitectAgent s) input = Throw (JsError
       "ArchitectAgent.run is not implemented. Integrate with your LLM/orchestrator here.") /\
     run (CoderAgent s) input = Throw (JsError
       "CoderAgent.run is not implemented. Integrate with your LLM/orchestrator here.") /\
     run (ReviewerAgent s) input = Throw (JsError
       "ReviewerAgent.run is not implemented. Integrate with your LLM/orchestrator here.") /\
     run (OpsAgent s) input = Throw (JsError
       "OpsAgent.run is not implemented. Integrate with your LLM/orchestrator here.")) /\
  (forall specs m r input,
     createAgentsFromSpecs specs = Ok m ->
     forall out, run (getAgentByRole m r) input <> Ok out) /\
  (forall selectArtifactsForStep buildExecutionContext writeOk updateState
          specs t pc wf tid fuel w w' res,
     createAgentsFromSpecs specs = Ok (registry w) ->
     loop selectArtifactsForStep buildExecutionContext writeOk updateState
          t pc wf tid fuel w = (w', res) ->
     artifactStore w' = artifactStore w /\
     runs w' = runs w /\
     (forall e, In e (events w') ->
        In e (events w) \/ exists sid r, e = WorkerInvoked sid r) /\
     (forall st, res = Ok st -> w' = w)).
Proof.
  split; [|split].
  - intros s input. repeat split; reflexivity.
  - intros specs m r input Hm out Hrun.
    destruct (created_agent_by_role specs m r Hm) as (_ & _ & _ & Hno).
    specialize (Hno input). rewrite Hrun in Hno. discriminate.
  - intros sel ctx wr upd specs t pc wf tid fuel w w' res Hm Hloop.
    assert (Hdone : w' = w ->
      artifactStore w' = artifactStore w /\ runs w' = runs w /\
      (forall e, In e (events w') ->
         In e (events w) \/ exists sid r, e = WorkerInvoked sid r) /\
      (forall st, res = Ok st -> w' = w)).
    { intros ->. repeat split; auto. }
    destruct fuel as [|fuel]; simpl in Hloop;
      destruct (runs w !! tid) as [state|]; try (injection Hloop as <- <-; auto; fail);
      destruct (loopGuard (status state)); try (injection Hloop as <- <-; auto; fail).
    unfold loopBody in Hloop.
    destruct (lookupStep wf (currentStepId state)) as [step|];
      [|injection Hloop as <- <-; auto].
    destruct (created_agent_by_role specs (registry w) (agentRole step) Hm)
      as (_ & _ & _ & Hno).
    specialize (Hno {| task := t;
                       artifacts := sel step t (artifactStore w);
                       context := ctx pc |}).
    destruct (run _ _) as [out|e] eqn:Hrun; [discriminate|].
    injection Hloop as <- <-. simpl. repeat split; try reflexivity.
    + intros e' Hin. apply in_app_or in Hin as [Hin|[<-|[]]]; eauto.
    + discriminate.
Qed.

(** The coder of the sample registry, called on the sample input, throws. *)
Lemma shipped_agents_always_throw_witness :
  exists e, run (getAgentByRole shippedAgents Coder) sampleInput = Throw e.
Proof.
  destruct (run (getAgentByRole shippedAgents Coder) sampleInput) as [out|e] eqn:Hrun.
  - exfalso.
    apply (proj1 (proj2 shipped_agents_always_throw)
             sampleSpecs shippedAgents Coder sampleInput) with out.
    + vm_compute. reflexivity.
    + exact Hrun.
  - exists e. reflexivity.
Defined.

(** C10: every agent built by [createAgentsFromSpecs] has its role string
    as [id] (the ops agent has id "ops"), [makeRef] returns exactly the
    [id] and [role] of its agent, and so the references of two such agents
    with the same role are equal, whatever factory call or definition they
    come from. *)
Theorem created_agent_ref_is_role (specs : AgentsSpecsFile) (m : AgentMap)
    (a : BaseAgent) :
  createAgentsFromSpecs specs = Ok m ->
  In a (agentsOf m) ->
  id a = roleName (role a) /\
  id (ops m) = "ops" /\
  makeRef a = {| ref_id := id a; ref_role := role a |} /\
  forall specs' m' b,
    createAgentsFromSpecs specs' = Ok m' ->
    In b (agentsOf m') ->
    role a = role b ->
    makeRef a = makeRef b.
Proof.
  intros Hm Ha.
  apply created_agents_listed in Ha as [r ->].
  destruct (created_agent_by_role specs m r Hm) as (Hr & Hid & _).
  destruct (created_agent_by_role specs m Ops Hm) as (_ & Hops & _).
  repeat split.
  - by rewrite Hid, Hr.
  - exact Hops.
  - intros specs' m' b Hm' Hb Hrole.
    apply created_agents_listed in Hb as [r' ->].
    destruct (created_agent_by_role specs' m' r' Hm') as (Hr' & Hid' & _).
    unfold makeRef. rewrite Hid, Hid', Hr, Hr' in *. by subst.
Qed.

(** The reviewer of the sample registry refers to itself as
    (reviewer, reviewer). *)
Lemma created_agent_ref_is_role_witness :
  id (reviewer shippedAgents) = roleName (role (reviewer shippedAgents)) /\
  makeRef (reviewer shippedAgents) = {| ref_id := "reviewer"; ref_role := Reviewer |}.
Proof.
  assert (Hm : createAgentsFromSpecs sampleSpecs = Ok shippedAgents)
    by (vm_compute; reflexivity).
  assert (Hin : In (reviewer shippedAgents) (agentsOf shippedAgents))
    by (simpl; tauto).
  destruct (created_agent_ref_is_role sampleSpecs shippedAgents
              (reviewer shippedAgents) Hm Hin) as (Hid & _ & Href & _).
  split; [exact Hid | exact Href].
Defined.

(** ** The registry is only read by the orchestrator flow *)

Section RegistryFrame.

Variable selectArtifactsForStep :
  WorkflowStep -> Task -> gmap string (list Artifact) -> list Artifact.
Variable buildExecutionContext : ProjectConfig -> ExecutionContext.
Variable writeOk : Artifact -> bool.
Variable updateState : RunState -> NextStepDecision -> RunState.

Let body := loopBody selectArtifactsForStep buildExecutionContext writeOk updateState.
Let theLoop := loop selectArtifactsForStep buildExecutionContext writeOk updateState.

Lemma loopBody_registry t pc wf tid w state :
  registry (fst (body t pc wf tid w state)) = registry w.
Proof.
  unfold body, loopBody.
  destruct (lookupStep wf (currentStepId state)) as [step|]; [|reflexivity].
  destruct (run _ _) as [out|e]; [|reflexivity].
  unfold applyOutput. simpl.
  destruct (ArtifactStore.append writeOk tid (newArtifacts out) (artifactStore w))
    as [store [u|e]]; reflexivity.
Qed.

Lemma loop_registry t pc wf tid fuel w :
  registry (fst (theLoop t pc wf tid fuel w)) = registry w.
Proof.
  unfold theLoop. revert w. induction fuel as [|fuel IH]; intros w; simpl.
  - destruct (runs w !! tid) as [state|]; [|reflexivity].
    destruct (loopGuard (status state)); reflexivity.
  - destruct (runs w !! tid) as [state|]; [|reflexivity].
    destruct (loopGuard (status state)); [|reflexivity].
    pose proof (loopBody_registry t pc wf tid w state) as Hb. unfold body in Hb.
    destruct (loopBody _ _ _ _ _ _ _ _ _ _) as [w' [u|e]]; simpl in Hb.
    + rewrite IH. exact Hb.
    + exact Hb.
Qed.

End RegistryFrame.

Lemma loadOrInitWorkflowState_registry tid wf w :
  registry (fst (loadOrInitWorkflowState tid wf w)) = registry w.
Proof.
  unfold loadOrInitWorkflowState.
  destruct (runs w !! tid) as [st|]; [|reflexivity].
  destruct (String.eqb _ _); reflexivity.
Qed.

Lemma handleTask_registry loadTask loadProjectConfig availableDefinitions
    selectArtifactsForStep buildExecutionContext writeOk updateState fuel tid w :
  registry (fst (handleTask loadTask loadProjectConfig availableDefinitions
                   selectArtifactsForStep buildExecutionContext writeOk
                   updateState fuel tid w)) = registry w.
Proof.
  unfold handleTask.
  destruct (loadTask tid) as [t|e]; [|reflexivity].
  destruct (loadProjectConfig (projectId t)) as [pc|e]; [|reflexivity].
  destruct (Router.selectWorkflow _ _ _) as [wf|e]; [|reflexivity].
  pose proof (loadOrInitWorkflowState_registry tid wf w) as H0.
  destruct (loadOrInitWorkflowState tid wf w) as [w0 [st|e]]; simpl in H0.
  - rewrite loop_registry. exact H0.
  - exact H0.
Qed.

Lemma createAgentsFromSpecs_throws (specs : AgentsSpecsFile) :
  (exists r, agents specs !! roleName r = None) <->
  createAgentsFromSpecs specs = Throw (JsError
    "agent_specs.json is missing one or more required agent definitions.").
Proof.
  unfold createAgentsFromSpecs. split.
  - intros [r Hr].
    destruct r; simpl in Hr; rewrite Hr;
      repeat (match goal with
              | |- context [match ?o with Some _ => _ | None => _ end] =>
                  destruct o
              end); reflexivity.
  - destruct (agents specs !! "planner") eqn:Hp; [|by exists Planner].
    destruct (agents specs !! "architect") eqn:Ha; [|by exists Architect].
    destruct (agents specs !! "coder") eqn:Hc; [|by exists Coder].
    destruct (agents specs !! "reviewer") eqn:Hr; [|by exists Reviewer].
    destruct (agents specs !! "ops") eqn:Ho; [|by exists Ops].
    discriminate.
Qed.

(** C5: [createAgentsFromSpecs] throws its configuration error exactly
    when the definition of one of the five roles is missing; otherwise the
    map it builds binds every role to one agent of that role, made from the
    definition of that role, and no other agent of the map has the role;
    the orchestrator flow only reads the registry: it is the same after
    [handleTask] as before. *)
Theorem registry_built_once_per_role :
  (forall specs,
     (exists r, agents specs !! roleName r = None) <->
     createAgentsFromSpecs specs = Throw (JsError
       "agent_specs.json is missing one or more required agent definitions.")) /\
  (forall specs,
     (forall r, is_Some (agents specs !! roleName r)) <->
     exists m, createAgentsFromSpecs specs = Ok m) /\
  (forall specs m r,
     createAgentsFromSpecs specs = Ok m ->
     role (getAgentByRole m r) = r /\
     agents specs !! roleName r = Some (spec (getAgentByRole m r)) /\
     length (agentsOf m) = 5 /\
     forall a, In a (agentsOf m) -> role a = r -> a = getAgentByRole m r) /\
  (forall loadTask loadProjectConfig availableDefinitions
          selectArtifactsForStep buildExecutionContext writeOk updateState
          fuel tid w,
     registry (fst (handleTask loadTask loadProjectConfig availableDefinitions
                      selectArtifactsForStep buildExecutionContext writeOk
                      updateState fuel tid w)) = registry w).
Proof.
  split; [exact createAgentsFromSpecs_throws|].
  split; [|split].
  - intros specs. split.
    + intros Hall.
      destruct (createAgentsFromSpecs specs) as [m|e] eqn:Hc; [by exists m|].
      exfalso.
      assert (Hthrow : createAgentsFromSpecs specs = Throw (JsError
        "agent_specs.json is missing one or more required agent definitions.")).
      { revert Hc. unfold createAgentsFromSpecs.
        repeat (match goal with
                | |- context [match ?o with Some _ => _ | None => _ end] =>
                    destruct o
                end); intros; first [discriminate | reflexivity]. }
      apply createAgentsFromSpecs_throws in Hthrow as [r Hr].
      destruct (Hall r) as [s Hs]. congruence.
    + intros [m Hm] r.
      destruct (created_agent_by_role specs m r Hm) as (_ & _ & Hs & _). eauto.
  - intros specs m r Hm.
    destruct (created_agent_by_role specs m r Hm) as (Hr & _ & Hs & _).
    repeat split; auto.
    intros a Ha Hrole. apply created_agents_listed in Ha as [r' ->].
    destruct (created_agent_by_role specs m r' Hm) as (Hr' & _).
    congruence.
  - intros. apply handleTask_registry.
Qed.

(** The sample agent_specs.json without the ops definition is refused. *)
Lemma registry_built_once_per_role_witness :
  createAgentsFromSpecs specsWithoutOps = Throw (JsError
    "agent_specs.json is missing one or more required agent definitions.").
Proof.
  apply (proj1 registry_built_once_per_role specsWithoutOps).
  exists Ops. vm_compute. reflexivity.
Defined.

(** * The Artifact Store *)

Lemma stage_spec (writeOk : Artifact -> bool) (batch staged : list Artifact) :
  ArtifactStore.stage writeOk staged batch =
  if forallb writeOk batch then Some (staged ++ batch)%list else None.
Proof.
  revert staged. induction batch as [|a rest IH]; intros staged; simpl.
  - by rewrite app_nil_r.
  - destruct (writeOk a); simpl; [|reflexivity].
    rewrite IH. by rewrite <- app_assoc.
Qed.

Lemma insertByCreation_In (a x : Artifact) (l : list Artifact) :
  In x (ArtifactStore.insertByCreation a l) <-> x = a \/ In x l.
Proof.
  induction l as [|b rest IH]; simpl.
  - intuition.
  - destruct (String.ltb _ _); simpl; [intuition|].
    rewrite IH. intuition.
Qed.

Lemma insertByCreation_length (a : Artifact) (l : list Artifact) :
  length (ArtifactStore.insertByCreation a l) = S (length l).
Proof.
  induction l as [|b rest IH]; simpl; [reflexivity|].
  destruct (String.ltb _ _); simpl; [reflexivity|]. by rewrite IH.
Qed.

Lemma sortByCreation_In (x : Artifact) (l : list Artifact) :
  In x (ArtifactStore.sortByCreation l) <-> In x l.
Proof.
  unfold ArtifactStore.sortByCreation.
  enough (H : forall acc,
             In x (foldl (fun sorted a => ArtifactStore.insertByCreation a sorted) acc l)
             <-> In x acc \/ In x l).
  { rewrite H. simpl. intuition. }
  induction l as [|a rest IH]; intros acc; simpl.
  - intuition.
  - rewrite IH, insertByCreation_In. intuition.
Qed.

Lemma sortByCreation_length (l : list Artifact) :
  length (ArtifactStore.sortByCreation l) = length l.
Proof.
  unfold ArtifactStore.sortByCreation.
  enough (H : forall acc,
             length (foldl (fun sorted a => ArtifactStore.insertByCreation a sorted) acc l)
             = length acc + length l).
  { rewrite H. reflexivity. }
  induction l as [|a rest IH]; intros acc; simpl.
  - lia.
  - rewrite IH, insertByCreation_length. lia.
Qed.

Lemma append_ofTask_ok writeOk tid batch store :
  forallb writeOk batch = true ->
  ArtifactStore.append writeOk tid batch store =
  (<[tid := (ArtifactStore.ofTask store tid ++ batch)%list]> store, Ok tt).
Proof.
  intros Hall. unfold ArtifactStore.append. by rewrite stage_spec, Hall.
Qed.

Lemma append_failed writeOk tid batch store :
  forallb writeOk batch = false ->
  ArtifactStore.append writeOk tid batch store = (store, Throw PartialAppendFailure).
Proof.
  intros Hall. unfold ArtifactStore.append. by rewrite stage_spec, Hall.
Qed.

(** C9: an append either publishes the whole batch or nothing.  If every
    write of the batch goes through, the artifacts listed for the task are
    those listed before together with every artifact of the batch, and the
    other tasks are untouched; if some write fails, the store is the one
    before the call, so [listByTask] and [latestOfType] answer as before
    and no artifact of the batch has become visible. *)
Theorem append_all_or_nothing (writeOk : Artifact -> bool) (tid : string)
    (batch : list Artifact) (store : gmap string (list Artifact)) :
  let store' := fst (ArtifactStore.append writeOk tid batch store) in
  let outcome := snd (ArtifactStore.append writeOk tid batch store) in
  (forallb writeOk batch = true /\
   outcome = Ok tt /\
   (forall a, In a (ArtifactStore.listByTask store' tid) <->
              In a (ArtifactStore.listByTask store tid) \/ In a batch) /\
   length (ArtifactStore.listByTask store' tid) =
     length (ArtifactStore.listByTask store tid) + length batch /\
   (forall other, other <> tid ->
      ArtifactStore.listByTask store' other = ArtifactStore.listByTask store other))
  \/
  (forallb writeOk batch = false /\
   outcome = Throw PartialAppendFailure /\
   store' = store /\
   (forall t, ArtifactStore.listByTask store' t = ArtifactStore.listByTask store t) /\
   (forall t type, ArtifactStore.latestOfType store' t type =
                   ArtifactStore.latestOfType store t type)).
Proof.
  intros store' outcome. subst store' outcome.
  destruct (forallb writeOk batch) eqn:Hall.
  - left. rewrite (append_ofTask_ok _ _ _ _ Hall). simpl.
    unfold ArtifactStore.listByTask, ArtifactStore.ofTask.
    rewrite lookup_insert_eq. simpl.
    split; [reflexivity|]. split; [reflexivity|]. split; [|split].
    + intros a. rewrite !sortByCreation_In. apply in_app_iff.
    + rewrite !sortByCreation_length, length_app. reflexivity.
    + intros other Hne. by rewrite lookup_insert_ne.
  - right. rewrite (append_failed _ _ _ _ Hall). simpl. repeat split.
Qed.

(** A batch of three whose second write fails leaves nothing visible. *)
Lemma append_all_or_nothing_witness :
  ArtifactStore.listByTask
    (fst (ArtifactStore.append noteWriteFails "T-1"
            [patchArtifact; noteArtifact; reviewArtifact] ∅)) "T-1" = [].
Proof.
  destruct (append_all_or_nothing noteWriteFails "T-1"
              [patchArtifact; noteArtifact; reviewArtifact] ∅)
    as [(Hall & _)|(_ & _ & _ & Hlist & _)].
  - vm_compute in Hall. discriminate.
  - rewrite Hlist. reflexivity.
Defined.

(** * Artifact type tags *)

Lemma applyOutput_stores writeOk updateState
    (step : WorkflowStep) tid w1 state out :
  forallb writeOk (newArtifacts out) = true ->
  applyOutput writeOk updateState step tid w1 state out =
  (logEvent (TransitionApplied (step_id step) (transition step out))
     (setRuns (<[tid := updateState state (transition step out)]> (runs w1))
        (logEvent (ArtifactsPersisted (newArtifacts out))
           (setArtifactStore
              (<[tid := (ArtifactStore.ofTask (artifactStore w1) tid
                         ++ newArtifacts out)%list]> (artifactStore w1)) w1))),
   Ok tt).
Proof.
  intros Hall. unfold applyOutput.
  rewrite (append_ofTask_ok _ _ _ _ Hall). reflexivity.
Qed.

(** C6, as stated, fails: an artifact tagged "plan" is an Artifact of
    types.ts and of the template's union, its tag is outside the seven of
    the specification, and the orchestrator flow stores it when a planner
    returns it. *)
Lemma plan_artifact_outside_closed_set :
  ~ (forall a : Artifact, In (artifactType a) specArtifactTypes) /\
  In (artifactType planArtifact) templateArtifactTypes /\
  In planArtifact
     (ArtifactStore.listByTask
        (artifactStore
           (fst (loopBody allArtifactsOfTask sampleContext everyWriteOk
                   (updateStateWith 2) bugfixTask sampleProject bugfixFastFlow "T-1"
                   (worldOf planningAgents (runAt bugfixFastFlow "plan" in_progress))
                   (runAt bugfixFastFlow "plan" in_progress))))
        "T-1").
Proof.
  split; [|split].
  - intros Hall. specialize (Hall planArtifact). vm_compute in Hall.
    intuition discriminate.
  - vm_compute. tauto.
  - vm_compute. left. reflexivity.
Qed.

(** C6, amended: the type tag of an Artifact is a string, any string; the
    template closes it to nine tags, the seven of the specification and
    also "plan" and "pr"; and the orchestrator flow hands whatever
    artifacts a worker returns to the store without looking at their tags:
    once the append succeeds every one of them is listed for the task. *)
Theorem artifact_type_is_open :
  (forall tag : string, exists a : Artifact, artifactType a = tag) /\
  (forall tag,
     In tag templateArtifactTypes <->
     In tag specArtifactTypes \/ tag = "plan" \/ tag = "pr") /\
  ~ In "plan" specArtifactTypes /\
  ~ In "pr" specArtifactTypes /\
  (forall writeOk updateState step tid w1 state out a,
     forallb writeOk (newArtifacts out) = true ->
     In a (newArtifacts out) ->
     In a (ArtifactStore.listByTask
             (artifactStore
                (fst (applyOutput writeOk updateState step tid w1 state out)))
             tid)).
Proof.
  split; [|split; [|split; [|split]]].
  - intros tag.
    exists {| artifact_id := "A"; taskId := "T"; artifactType := tag;
              content := ""; createdBy := {| ref_id := "coder"; ref_role := Coder |};
              createdAt := "" |}.
    reflexivity.
  - intros tag. unfold templateArtifactTypes, specArtifactTypes. simpl.
    intuition (subst; auto).
  - unfold specArtifactTypes. simpl. intuition discriminate.
  - unfold specArtifactTypes. simpl. intuition discriminate.
  - intros writeOk updateState step tid w1 state out a Hall Ha.
    rewrite (applyOutput_stores _ _ _ _ _ _ _ Hall). simpl.
    unfold ArtifactStore.listByTask, ArtifactStore.ofTask.
    rewrite lookup_insert_eq. simpl.
    apply sortByCreation_In, in_or_app. by right.
Qed.

(** * The Task Router *)

Lemma applies_In (t : Task) (d : Workflow) :
  Router.applies t d = true <-> In (task_type t) (applicableTaskTypes d).
Proof.
  unfold Router.applies. rewrite existsb_exists. split.
  - intros (x & Hx & Heq). apply String.eqb_eq in Heq. by subst.
  - intros Hin. exists (task_type t). split; [exact Hin|apply String.eqb_refl].
Qed.

Lemma firstById_In (l : list Workflow) (d : Workflow) :
  Router.firstById l = Some d -> In d l.
Proof.
  revert d. induction l as [|x rest IH]; intros d; simpl; [discriminate|].
  destruct (Router.firstById rest) as [b|].
  - destruct (String.leb _ _); intros [= <-]; auto.
  - intros [= <-]. auto.
Qed.

Lemma firstById_None (l : list Workflow) :
  Router.firstById l = None <-> l = [].
Proof.
  destruct l as [|x rest]; simpl; [tauto|].
  split; [|discriminate].
  destruct (Router.firstById rest) as [b|]; [destruct (String.leb _ _)|]; discriminate.
Qed.

Lemma selectWorkflow_ok t defs pref d :
  Router.selectWorkflow t defs pref = Ok d ->
  In d defs /\ In (task_type t) (applicableTaskTypes d).
Proof.
  unfold Router.selectWorkflow.
  assert (Hmatch : forall x, In x (List.filter (Router.applies t) defs) ->
                             In x defs /\ In (task_type t) (applicableTaskTypes x)).
  { intros x Hx. apply filter_In in Hx as [Hin Happ]. by apply applies_In in Happ. }
  destruct pref as [wid|].
  - destruct (find _ _) as [n|] eqn:Hfind.
    + intros [= <-]. apply find_some in Hfind as [Hin _]. auto.
    + destruct (Router.firstById _) as [f|] eqn:Hfirst; [|discriminate].
      intros [= <-]. apply firstById_In in Hfirst. auto.
  - destruct (Router.firstById _) as [f|] eqn:Hfirst; [|discriminate].
    intros [= <-]. apply firstById_In in Hfirst. auto.
Qed.

Lemma selectWorkflow_throw_iff t defs pref :
  Router.selectWorkflow t defs pref = Throw NoMatchingWorkflow <->
  forall d, In d defs -> ~ In (task_type t) (applicableTaskTypes d).
Proof.
  split.
  - intros Hthrow d Hin Happ.
    assert (Hd : In d (List.filter (Router.applies t) defs)).
    { apply filter_In. split; [exact Hin|by apply applies_In]. }
    unfold Router.selectWorkflow in Hthrow.
    destruct (match pref with Some _ => _ | None => _ end); [discriminate|].
    destruct (Router.firstById _) as [f|] eqn:Hfirst; [discriminate|].
    apply firstById_None in Hfirst. rewrite Hfirst in Hd. destruct Hd.
  - intros Hnone.
    assert (Hempty : List.filter (Router.applies t) defs = []).
    { destruct (List.filter (Router.applies t) defs) as [|x rest] eqn:Hf; [reflexivity|].
      assert (Hx : In x (List.filter (Router.applies t) defs)) by (rewrite Hf; simpl; auto).
      apply filter_In in Hx as [Hin Happ]. apply applies_In in Happ.
      destruct (Hnone x Hin Happ). }
    unfold Router.selectWorkflow. rewrite Hempty. by destruct pref.
Qed.

(** C8: [selectWorkflow] fails with NoMatchingWorkflow exactly when no
    available definition lists the type of the task; it fails with nothing
    else, and a definition it returns is an available one that lists the
    type (never a default); when it fails, [handleTask] passes the error to
    its caller and leaves the stores as they were, so no RunState has been
    created. *)
Theorem selectWorkflow_no_match_no_run :
  (forall t defs pref,
     Router.selectWorkflow t defs pref = Throw NoMatchingWorkflow <->
     forall d, In d defs -> ~ In (task_type t) (applicableTaskTypes d)) /\
  (forall t defs pref e,
     Router.selectWorkflow t defs pref = Throw e -> e = NoMatchingWorkflow) /\
  (forall t defs pref d,
     Router.selectWorkflow t defs pref = Ok d ->
     In d defs /\ In (task_type t) (applicableTaskTypes d)) /\
  (forall loadTask loadProjectConfig defs selectArtifactsForStep
          buildExecutionContext writeOk updateState fuel tid w t pc,
     loadTask tid = Ok t ->
     loadProjectConfig (projectId t) = Ok pc ->
     (forall d, In d defs -> ~ In (task_type t) (applicableTaskTypes d)) ->
     handleTask loadTask loadProjectConfig defs selectArtifactsForStep
       buildExecutionContext writeOk updateState fuel tid w
     = (w, Throw NoMatchingWorkflow)).
Proof.
  split; [exact selectWorkflow_throw_iff|]. split; [|split].
  - intros t defs pref e. unfold Router.selectWorkflow.
    destruct (match pref with Some _ => _ | None => _ end); [discriminate|].
    destruct (Router.firstById _); [discriminate|]. by intros [= <-].
  - exact selectWorkflow_ok.
  - intros loadTask loadProjectConfig defs sel ctx wr upd fuel tid w t pc Ht Hpc Hnone.
    unfold handleTask. rewrite Ht, Hpc.
    apply (selectWorkflow_throw_iff t defs (workflows pc !! task_type t)) in Hnone.
    by rewrite Hnone.
Qed.

(** Scenario D: a task of type "docs" against workflows for "bugfix" and
    "feature" fails with NoMatchingWorkflow and the stores stay empty. *)
Lemma selectWorkflow_no_match_no_run_witness :
  handleTask loadSampleTask loadSampleProject sampleDefinitions allArtifactsOfTask
    sampleContext everyWriteOk (updateStateWith 2) 10 "T-2" (emptyWorld shippedAgents)
  = (emptyWorld shippedAgents, Throw NoMatchingWorkflow).
Proof.
  apply (proj2 (proj2 (proj2 selectWorkflow_no_match_no_run))) with docsTask sampleProject.
  - reflexivity.
  - reflexivity.
  - intros d Hin Happ. simpl in Hin.
    destruct Hin as [<-|[<-|[]]]; simpl in Happ; intuition discriminate.
Defined.

(** * The orchestrator loop *)

Lemma loop_stops selectArtifactsForStep buildExecutionContext writeOk updateState
    t pc wf tid fuel w state :
  runs w !! tid = Some state ->
  loopGuard (status state) = false ->
  loop selectArtifactsForStep buildExecutionContext writeOk updateState
       t pc wf tid fuel w = (w, Ok state).
Proof.
  intros Hst Hguard. destruct fuel; simpl; by rewrite Hst, Hguard.
Qed.

Lemma loop_goes_on selectArtifactsForStep buildExecutionContext writeOk updateState
    t pc wf tid fuel w state :
  runs w !! tid = Some state ->
  loopGuard (status state) = true ->
  loop selectArtifactsForStep buildExecutionContext writeOk updateState
       t pc wf tid (S fuel) w =
  match loopBody selectArtifactsForStep buildExecutionContext writeOk updateState
                 t pc wf tid w state with
  | (w', Ok _) =>
      loop selectArtifactsForStep buildExecutionContext writeOk updateState
           t pc wf tid fuel w'
  | (w', Throw e) => (w', Throw e)
  end.
Proof.
  intros Hst Hguard. simpl. by rewrite Hst, Hguard.
Qed.

Lemma loopGuard_false (s : RunStatus) :
  loopGuard s = false <-> s = completed \/ s = waiting_human.
Proof. destruct s; vm_compute; intuition discriminate. Qed.

Lemma loop_returns_halted selectArtifactsForStep buildExecutionContext writeOk
    updateState t pc wf tid fuel w w' st :
  loop selectArtifactsForStep buildExecutionContext writeOk updateState
       t pc wf tid fuel w = (w', Ok st) ->
  status st = completed \/ status st = waiting_human.
Proof.
  revert w. induction fuel as [|fuel IH]; intros w; simpl.
  - destruct (runs w !! tid) as [state|]; [|discriminate].
    destruct (loopGuard (status state)) eqn:Hg; [discriminate|].
    intros [= <- <-]. by apply loopGuard_false.
  - destruct (runs w !! tid) as [state|]; [|discriminate].
    destruct (loopGuard (status state)) eqn:Hg.
    + destruct (loopBody _ _ _ _ _ _ _ _ _ _) as [w1 [u|e]]; [apply IH|discriminate].
    + intros [= <- <-]. by apply loopGuard_false.
Qed.

(** C2, as stated, fails for [failed]: the guard of the loop lets a failed
    run through.  On a run stored as failed the loop invokes the planner,
    has its artifact persisted and applies the transition. *)
Lemma failed_run_is_executed :
  ~ (stopsAt completed /\ stopsAt failed) /\
  events (fst (sampleLoop bugfixFastFlow 1
                 (worldOf planningAgents (runAt bugfixFastFlow "plan" failed))))
  = [ WorkerInvoked "plan" Planner;
      ArtifactsPersisted [planArtifact];
      TransitionApplied "plan" (mkDecision (Some "implement") DInProgress) ].
Proof.
  split; [|vm_compute; reflexivity].
  intros [_ Hfailed].
  specialize (Hfailed allArtifactsOfTask sampleContext everyWriteOk (updateStateWith 2)
                bugfixTask sampleProject bugfixFastFlow "T-1" 1%nat
                (worldOf planningAgents (runAt bugfixFastFlow "plan" failed))
                (runAt bugfixFastFlow "plan" failed) eq_refl eq_refl).
  vm_compute in Hfailed. discriminate.
Qed.

(** C2, amended: once the status of a run is completed the loop executes
    no further step.  At a completed run it returns at once and the world
    is untouched (no worker invoked, no artifact appended, no transition
    applied); the pass in which the status becomes completed is the last
    one, the loop returns the world that pass left; a run the loop returns
    is completed or waiting for a human.  [failed] is not a status a
    decision of the template can carry, and the guard does not test for
    it. *)
Theorem completed_run_is_terminal :
  stopsAt completed /\
  (forall selectArtifactsForStep buildExecutionContext writeOk updateState
          t pc wf tid fuel w state w' st',
     runs w !! tid = Some state ->
     loopGuard (status state) = true ->
     loopBody selectArtifactsForStep buildExecutionContext writeOk updateState
              t pc wf tid w state = (w', Ok tt) ->
     runs w' !! tid = Some st' ->
     status st' = completed ->
     loop selectArtifactsForStep buildExecutionContext writeOk updateState
          t pc wf tid (S fuel) w = (w', Ok st')) /\
  (forall selectArtifactsForStep buildExecutionContext writeOk updateState
          t pc wf tid fuel w w' st,
     loop selectArtifactsForStep buildExecutionContext writeOk updateState
          t pc wf tid fuel w = (w', Ok st) ->
     status st = completed \/ status st = waiting_human) /\
  (forall d : NextStepDecision, statusOf (decision_status d) <> failed).
Proof.
  assert (Hstop : stopsAt completed).
  { intros sel ctx wr upd t pc wf tid fuel w state Hst Hs.
    apply loop_stops; [exact Hst|]. by rewrite Hs. }
  split; [exact Hstop|]. split; [|split].
  - intros sel ctx wr upd t pc wf tid fuel w state w' st' Hst Hg Hbody Hst' Hs'.
    rewrite (loop_goes_on _ _ _ _ _ _ _ _ _ _ _ Hst Hg), Hbody.
    by apply Hstop.
  - intros sel ctx wr upd t pc wf tid fuel w w' st. apply loop_returns_halted.
  - intros [next []]; simpl; discriminate.
Qed.

(** Scenario A: after Plan, Implement and Review the run is completed with
    three history entries, and running the loop again on that world does
    nothing. *)
Lemma completed_run_is_terminal_witness :
  status (storedRun scenarioAEnd) = completed /\
  length (history (storedRun scenarioAEnd)) = 3 /\
  sampleLoop bugfixFastFlow 7 scenarioAEnd = (scenarioAEnd, Ok (storedRun scenarioAEnd)).
Proof.
  split; [vm_compute; reflexivity|]. split; [vm_compute; reflexivity|].
  apply (proj1 completed_run_is_terminal).
  - vm_compute. reflexivity.
  - vm_compute. reflexivity.
Defined.

(** C3 at a blocked decision: the ops worker needs a human, the rule of
    the step answers with status blocked and no next step, the state is
    stored as blocked, and the loop goes round again: with fuel for three
    passes the worker is invoked three times and the loop has not
    returned. *)
Theorem blocked_decision_does_not_halt :
  let w := worldOf opsNeedsHuman (runAt standardDevFlow "ops" in_progress) in
  let blockedDecision := mkDecision None DBlocked in
  snd (sampleLoop standardDevFlow 3 w) = Throw OutOfFuel /\
  status (storedRun (fst (sampleLoop standardDevFlow 1 w))) = blocked /\
  events (fst (sampleLoop standardDevFlow 3 w)) =
    [ WorkerInvoked "ops" Ops; ArtifactsPersisted [];
      TransitionApplied "ops" blockedDecision;
      WorkerInvoked "ops" Ops; ArtifactsPersisted [];
      TransitionApplied "ops" blockedDecision;
      WorkerInvoked "ops" Ops; ArtifactsPersisted [];
      TransitionApplied "ops" blockedDecision ] /\
  ~ stopsAt blocked /\
  stopsAt waiting_human.
Proof.
  cbv zeta. split; [vm_compute; reflexivity|].
  split; [vm_compute; reflexivity|]. split; [vm_compute; reflexivity|]. split.
  - intros Hblocked.
    specialize (Hblocked allArtifactsOfTask sampleContext everyWriteOk (updateStateWith 2)
                  bugfixTask sampleProject standardDevFlow "T-1" 1%nat
                  (worldOf opsNeedsHuman (runAt standardDevFlow "ops" blocked))
                  (runAt standardDevFlow "ops" blocked) eq_refl eq_refl).
    vm_compute in Hblocked. discriminate.
  - intros sel ctx wr upd t pc wf tid fuel w state Hst Hs.
    apply loop_stops; [exact Hst|]. by rewrite Hs.
Qed.

(** C7, as stated, fails on the orchestrator flow: the reviewer hands off
    to the ops role, [bugfix-fast-flow] has no step of that role, and the
    run ends completed with the entry of an ordinary completion; the
    handoff request leaves no trace. *)
Lemma unknown_handoff_is_dropped :
  let w := worldOf reviewerHandsOffToOps (runAt bugfixFastFlow "review" in_progress) in
  Engine.hasStepWithRole bugfixFastFlow Ops = false /\
  status (storedRun (fst (sampleLoop bugfixFastFlow 5 w))) = completed /\
  history (storedRun (fst (sampleLoop bugfixFastFlow 5 w))) = [("review", Completed)] /\
  status (storedRun (fst (sampleLoop bugfixFastFlow 5 w))) <> blocked.
Proof.
  cbv zeta. repeat split; try (vm_compute; reflexivity).
  vm_compute. discriminate.
Qed.

Lemma loopBody_applies_transition selectArtifactsForStep buildExecutionContext
    writeOk updateState t pc wf tid w state step out :
  lookupStep wf (currentStepId state) = Some step ->
  run (getAgentByRole (registry w) (agentRole step))
      {| task := t;
         artifacts := selectArtifactsForStep step t (artifactStore w);
         context := buildExecutionContext pc |} = Ok out ->
  forallb writeOk (newArtifacts out) = true ->
  runs (fst (loopBody selectArtifactsForStep buildExecutionContext writeOk
               updateState t pc wf tid w state)) !! tid
  = Some (updateState state (transition step out)).
Proof.
  intros Hstep Hrun Hall. unfold loopBody. rewrite Hstep, Hrun.
  rewrite (applyOutput_stores _ _ _ _ _ _ _ Hall). simpl.
  apply lookup_insert_eq.
Qed.

Lemma repeatStep_status max requested cause st :
  status (Engine.repeatStep max requested cause st) = waiting_human \/
  status (Engine.repeatStep max requested cause st) = requested.
Proof.
  unfold Engine.repeatStep. destruct (_ <? _)%Z; simpl; auto.
Qed.

Lemma applyDecision_blocked max d st :
  status (Engine.applyDecision max d st) = blocked <-> decision_status d = DBlocked.
Proof.
  unfold Engine.applyDecision.
  destruct d as [next []]; simpl; try (split; [discriminate|discriminate]);
    try (split; reflexivity);
    destruct next as [n|]; simpl; try (split; discriminate);
    destruct (String.eqb n (currentStepId st)); simpl; try (split; discriminate);
    match goal with
    | |- context [Engine.repeatStep ?m ?r ?c ?s] =>
        destruct (repeatStep_status m r c s) as [-> | ->]; split; discriminate
    end.
Qed.

Lemma applyDecision_history max d st :
  exists o, history (Engine.applyDecision max d st) = (history st ++ [(currentStepId st, o)])%list
            /\ forall r, o <> UnknownHandoffTarget r.
Proof.
  unfold Engine.applyDecision, Engine.repeatStep.
  destruct d as [next []]; simpl;
    try destruct next as [n|]; simpl;
    try destruct (String.eqb n (currentStepId st)); simpl;
    try destruct (_ <? _)%Z; simpl;
    eexists; (split; [reflexivity|discriminate]).
Qed.

(** C7, amended: the orchestrator flow treats a handoff like any other
    output.  Whatever the worker returned, the state it stores is
    [updateState] of the decision of the step's transition rule; with the
    state update of the specification that state is blocked exactly when
    the rule itself returned blocked, and the entry added to the history
    is never an UnknownHandoffTarget one. *)
Theorem handoff_decided_by_transition_rule :
  (forall selectArtifactsForStep buildExecutionContext writeOk updateState
          t pc wf tid w state step out,
     lookupStep wf (currentStepId state) = Some step ->
     run (getAgentByRole (registry w) (agentRole step))
         {| task := t;
            artifacts := selectArtifactsForStep step t (artifactStore w);
            context := buildExecutionContext pc |} = Ok out ->
     forallb writeOk (newArtifacts out) = true ->
     runs (fst (loopBody selectArtifactsForStep buildExecutionContext writeOk
                  updateState t pc wf tid w state)) !! tid
     = Some (updateState state (transition step out))) /\
  (forall max d st,
     status (updateStateWith max st d) = blocked <-> decision_status d = DBlocked) /\
  (forall max d st,
     exists o,
       history (updateStateWith max st d) = (history st ++ [(currentStepId st, o)])%list /\
       forall r, o <> UnknownHandoffTarget r).
Proof.
  split; [exact loopBody_applies_transition|]. split.
  - intros. apply applyDecision_blocked.
  - intros. apply applyDecision_history.
Qed.

(** The reviewer's handoff to ops is stored as what the rule of the Review
    step decided: the run is completed. *)
Lemma handoff_decided_by_transition_rule_witness :
  runs (fst (loopBody allArtifactsOfTask sampleContext everyWriteOk (updateStateWith 2)
               bugfixTask sampleProject bugfixFastFlow "T-1"
               (worldOf reviewerHandsOffToOps (runAt bugfixFastFlow "review" in_progress))
               (runAt bugfixFastFlow "review" in_progress))) !! "T-1"
  = Some (updateStateWith 2 (runAt bugfixFastFlow "review" in_progress)
            (mkDecision None DCompleted)).
Proof.
  apply (proj1 handoff_decided_by_transition_rule allArtifactsOfTask sampleContext
           everyWriteOk (updateStateWith 2) bugfixTask sampleProject bugfixFastFlow "T-1"
           (worldOf reviewerHandsOffToOps (runAt bugfixFastFlow "review" in_progress))
           (runAt bugfixFastFlow "review" in_progress)
           (mkWorkflowStep "review" "Review" Reviewer (advanceOrStop "review" None))
           {| newArtifacts := [reviewArtifact]; nextAction := Handoff;
              handoffTo := Some (ToAgent {| ref_id := "ops"; ref_role := Ops |}) |}).
  - reflexivity.
  - reflexivity.
  - reflexivity.
Defined.

(** * The retry budget of the state update *)

Lemma lookupStep_id (wf : Workflow) (sid : string) (step : WorkflowStep) :
  lookupStep wf sid = Some step -> step_id step = sid.
Proof.
  unfold lookupStep. intros H. apply find_some in H as [_ H].
  by apply String.eqb_eq in H.
Qed.

Lemma retryCount_setRetry (st : RunState) (sid sid' : string) (c : Z) :
  retryCount (setRetry sid c st) sid' =
  if decide (sid = sid') then c else retryCount st sid'.
Proof.
  unfold retryCount, setRetry. simpl. rewrite lookup_insert.
  by case_decide.
Qed.

Section RetryBudget.

Variable wf : Workflow.
Variable maxRetries : WorkflowStep -> nat.

Local Abbreviation withinBudget := (Engine.withinBudget wf maxRetries).

Lemma repeatStep_withinBudget st step requested cause :
  lookupStep wf (currentStepId st) = Some step ->
  withinBudget st ->
  withinBudget (Engine.repeatStep (Z.of_nat (maxRetries step)) requested cause st).
Proof.
  intros Hstep Hinv sid step' Hstep'. unfold Engine.repeatStep.
  destruct (Z.ltb_spec (Z.of_nat (maxRetries step)) (retryCount st (currentStepId st) + 1)).
  - apply (Hinv sid step' Hstep').
  - change (0 <= retryCount (setRetry (currentStepId st)
                               (retryCount st (currentStepId st) + 1) st) sid
            <= Z.of_nat (maxRetries step'))%Z.
    rewrite retryCount_setRetry. case_decide as Heq.
    + subst sid. assert (step' = step) by congruence. subst step'.
      pose proof (Hinv _ _ Hstep). lia.
    + apply (Hinv sid step' Hstep').
Qed.

Lemma applyDecision_withinBudget st step d :
  lookupStep wf (currentStepId st) = Some step ->
  withinBudget st ->
  withinBudget (Engine.applyDecision (Z.of_nat (maxRetries step)) d st).
Proof.
  intros Hstep Hinv. unfold Engine.applyDecision.
  destruct d as [next []]; simpl; try exact Hinv;
    destruct next as [n|]; try exact Hinv;
    destruct (String.eqb n (currentStepId st)); try exact Hinv;
    by apply repeatStep_withinBudget.
Qed.

Lemma repeatStep_not_failed max requested cause st :
  requested <> failed ->
  status (Engine.repeatStep max requested cause st) <> failed.
Proof.
  intros Hreq. destruct (repeatStep_status max requested cause st) as [-> | ->];
    [discriminate|exact Hreq].
Qed.

Lemma repeatStep_exhausted max requested cause st :
  (max < retryCount st (currentStepId st) + 1)%Z ->
  Engine.repeatStep max requested cause st =
  record (RetryBudgetExceeded cause) (setStatus waiting_human st).
Proof.
  intros Hlt. unfold Engine.repeatStep.
  destruct (Z.ltb_spec max (retryCount st (currentStepId st) + 1)); [reflexivity|lia].
Qed.

Lemma repeatStep_retries max requested cause st :
  (retryCount st (currentStepId st) + 1 <= max)%Z ->
  Engine.repeatStep max requested cause st =
  record (Retried cause)
         (setStatus requested
            (setRetry (currentStepId st) (retryCount st (currentStepId st) + 1) st)).
Proof.
  intros Hle. unfold Engine.repeatStep.
  destruct (Z.ltb_spec max (retryCount st (currentStepId st) + 1)); [lia|reflexivity].
Qed.

End RetryBudget.

(** The loop of the template with the state update of the specification:
    a step whose rule always asks for a repeat is abandoned to a human
    after the first run and two retries. *)
Example template_loop_respects_budget :
  let r := sampleLoop spinningFlow 10
             (worldOf planningAgents (runAt spinningFlow "implement" in_progress)) in
  (status <$> runs (fst r) !! "T-1") = Some waiting_human /\
  (retries <$> runs (fst r) !! "T-1") = Some {[ "implement" := 2%Z ]} /\
  length (List.filter (fun e => match e with WorkerInvoked _ _ => true | _ => false end)
                      (events (fst r))) = 3.
Proof. vm_compute. repeat split; reflexivity. Qed.

(** * An end-to-end run of the flow

    Scenario A through [handleTask]: the bugfix task is routed to
    [bugfix-fast-flow], the workflow the project prefers for bugfixes, and
    ends completed after three passes. *)
Example scenario_A_handleTask :
  let r := handleTask loadSampleTask loadSampleProject sampleDefinitions
             allArtifactsOfTask sampleContext everyWriteOk (updateStateWith 2)
             10 "T-1" (emptyWorld scenarioAgents) in
  (workflowId <$> runs (fst r) !! "T-1") = Some "bugfix-fast-flow" /\
  (status <$> runs (fst r) !! "T-1") = Some completed /\
  (length ∘ history <$> runs (fst r) !! "T-1") = Some 3 /\
  length (ArtifactStore.listByTask (artifactStore (fst r)) "T-1") = 4.
Proof. vm_compute. repeat split; reflexivity. Qed.

(** * Further properties of the factory *)

(** X1: [createAgentsFromSpecs] reads nothing but the five role entries of
    [specs.agents]: two files that agree on them give the same result
    (the same error, or maps with the same agents), whatever else they
    hold, other definitions or a handoff section. *)
Theorem createAgentsFromSpecs_reads_five_entries (specs specs' : AgentsSpecsFile) :
  (forall r, agents specs !! roleName r = agents specs' !! roleName r) ->
  createAgentsFromSpecs specs = createAgentsFromSpecs specs'.
Proof.
  intros Hsame. unfold createAgentsFromSpecs.
  pose proof (Hsame Planner) as Hp. pose proof (Hsame Architect) as Ha.
  pose proof (Hsame Coder) as Hc. pose proof (Hsame Reviewer) as Hr.
  pose proof (Hsame Ops) as Ho. simpl in *.
  by rewrite Hp, Ha, Hc, Hr, Ho.
Qed.

(** The sample file with a "qa" definition and a handoff section added
    builds the same registry. *)
Lemma createAgentsFromSpecs_reads_five_entries_witness :
  createAgentsFromSpecs sampleSpecs = createAgentsFromSpecs specsWithExtras.
Proof.
  apply createAgentsFromSpecs_reads_five_entries.
  intros []; vm_compute; reflexivity.
Defined.

(** X2: within one registry the agents are told apart by their
    references: the five ids are pairwise distinct, so are the five roles,
    and two agents of the registry with the same reference are the same
    agent. *)
Theorem registry_refs_identify_agents (specs : AgentsSpecsFile) (m : AgentMap) :
  createAgentsFromSpecs specs = Ok m ->
  NoDup (map id (agentsOf m)) /\
  NoDup (map role (agentsOf m)) /\
  forall a b, In a (agentsOf m) -> In b (agentsOf m) ->
              makeRef a = makeRef b -> a = b.
Proof.
  intros Hm. split; [|split].
  - apply createAgentsFromSpecs_ok in Hm as (p & a & c & r & o & _ & _ & _ & _ & _ & ->).
    simpl. apply NoDup_ListNoDup. repeat constructor; simpl; intuition discriminate.
  - apply createAgentsFromSpecs_ok in Hm as (p & a & c & r & o & _ & _ & _ & _ & _ & ->).
    simpl. apply NoDup_ListNoDup. repeat constructor; simpl; intuition discriminate.
  - intros a b Ha Hb Href.
    apply created_agents_listed in Ha as [ra ->].
    apply created_agents_listed in Hb as [rb ->].
    destruct (created_agent_by_role specs m ra Hm) as (Hra & _).
    destruct (created_agent_by_role specs m rb Hm) as (Hrb & _).
    unfold makeRef in Href. injection Href as _ Hrole. congruence.
Qed.

(** The five ids of the sample registry are pairwise distinct. *)
Lemma registry_refs_identify_agents_witness :
  NoDup (map id (agentsOf shippedAgents)).
Proof.
  apply (registry_refs_identify_agents sampleSpecs shippedAgents).
  vm_compute. reflexivity.
Defined.

(** * Further properties of the orchestrator loop *)

Section LoopFacts.

Variable selectArtifactsForStep :
  WorkflowStep -> Task -> gmap string (list Artifact) -> list Artifact.
Variable buildExecutionContext : ProjectConfig -> ExecutionContext.
Variable writeOk : Artifact -> bool.
Variable updateState : RunState -> NextStepDecision -> RunState.
Variable t : Task.
Variable pc : ProjectConfig.
Variable wf : Workflow.
Variable tid : string.

Local Abbreviation body :=
  (loopBody selectArtifactsForStep buildExecutionContext writeOk updateState t pc wf tid).
Local Abbreviation theLoop :=
  (loop selectArtifactsForStep buildExecutionContext writeOk updateState t pc wf tid).

Lemma applyOutput_cases step w1 state out :
  (exists e, applyOutput writeOk updateState step tid w1 state out = (w1, Throw e)) \/
  (exists store,
     applyOutput writeOk updateState step tid w1 state out =
     (logEvent (TransitionApplied (step_id step) (transition step out))
        (setRuns (<[tid := updateState state (transition step out)]> (runs w1))
           (logEvent (ArtifactsPersisted (newArtifacts out))
              (setArtifactStore store w1))), Ok tt)).
Proof.
  unfold applyOutput.
  destruct (ArtifactStore.append writeOk tid (newArtifacts out) (artifactStore w1))
    as [store [[]|e]]; eauto.
Qed.

Lemma loopBody_throw_runs w state w' e :
  body w state = (w', Throw e) -> runs w' = runs w.
Proof.
  unfold loopBody.
  destruct (lookupStep wf (currentStepId state)) as [step|]; [|by intros [= <- _]].
  destruct (run _ _) as [out|e']; [|by intros [= <- _]].
  destruct (applyOutput_cases step
              (logEvent (WorkerInvoked (step_id step) (agentRole step)) w) state out)
    as [[e' ->]|[store ->]]; [by intros [= <- _]|discriminate].
Qed.

Lemma loopBody_ok_runs w state w' u :
  body w state = (w', Ok u) ->
  exists d, runs w' = <[tid := updateState state d]> (runs w).
Proof.
  unfold loopBody.
  destruct (lookupStep wf (currentStepId state)) as [step|]; [|discriminate].
  destruct (run _ _) as [out|e']; [|discriminate].
  destruct (applyOutput_cases step
              (logEvent (WorkerInvoked (step_id step) (agentRole step)) w) state out)
    as [[e' ->]|[store ->]]; [discriminate|].
  intros [= <- _]. by exists (transition step out).
Qed.

Lemma loop_unfold fuel w :
  theLoop fuel w =
  match runs w !! tid with
  | None => (w, Throw (JsError "run state is undefined"))
  | Some state =>
      if loopGuard (status state) then
        match fuel with
        | O => (w, Throw OutOfFuel)
        | S fuel' =>
            match body w state with
            | (w', Ok _) => theLoop fuel' w'
            | (w', Throw e) => (w', Throw e)
            end
        end
      else (w, Ok state)
  end.
Proof. destruct fuel; reflexivity. Qed.

Lemma loop_ok_stored fuel : forall w w' st,
  theLoop fuel w = (w', Ok st) -> runs w' !! tid = Some st.
Proof.
  induction fuel as [|fuel IH]; intros w w' st; rewrite loop_unfold;
    destruct (runs w !! tid) as [state|] eqn:Hst; try discriminate;
    destruct (loopGuard (status state)); try discriminate;
    try (by intros [= <- <-]).
  destruct (body w state) as [w1 [u|e]]; [apply IH|discriminate].
Qed.

Lemma loop_throw_open fuel : forall w w' e st,
  theLoop fuel w = (w', Throw e) ->
  runs w' !! tid = Some st ->
  loopGuard (status st) = true.
Proof.
  induction fuel as [|fuel IH]; intros w w' e st; rewrite loop_unfold;
    destruct (runs w !! tid) as [state|] eqn:Hst;
    try (intros [= <- _]; congruence);
    destruct (loopGuard (status state)) eqn:Hg; try discriminate;
    try (intros [= <- _]; congruence).
  destruct (body w state) as [w1 [u|e1]] eqn:Hbody; [apply IH|].
  intros [= <- _] Hst'. apply loopBody_throw_runs in Hbody.
  rewrite Hbody in Hst'. congruence.
Qed.

End LoopFacts.

(** X3: a pass of the loop that fails, because the workflow has no step
    of the current identifier, because the worker throws or because the
    artifacts cannot be persisted, ends before [updateState]: the stored
    run states are those from before the pass. *)
Theorem failed_pass_keeps_run_states
    selectArtifactsForStep buildExecutionContext writeOk updateState
    t pc wf tid w state w' e :
  loopBody selectArtifactsForStep buildExecutionContext writeOk updateState
           t pc wf tid w state = (w', Throw e) ->
  runs w' = runs w.
Proof.
  unfold loopBody.
  destruct (lookupStep wf (currentStepId state)) as [step|]; [|by intros [= <- _]].
  destruct (run _ _) as [out|e']; [|by intros [= <- _]].
  unfold applyOutput.
  destruct (ArtifactStore.append writeOk tid (newArtifacts out) _) as [store [[]|e']];
    [discriminate|by intros [= <- _]].
Qed.

(** The coder of the sample workflow throws: the run stays as the Plan
    step left it. *)
Lemma failed_pass_keeps_run_states_witness :
  runs (fst (loopBody allArtifactsOfTask sampleContext everyWriteOk (updateStateWith 2)
               bugfixTask sampleProject bugfixFastFlow "T-1"
               (worldOf failingCoder (runAt bugfixFastFlow "implement" in_progress))
               (runAt bugfixFastFlow "implement" in_progress)))
  = {[ "T-1" := runAt bugfixFastFlow "implement" in_progress ]}.
Proof.
  apply (failed_pass_keeps_run_states allArtifactsOfTask sampleContext everyWriteOk
           (updateStateWith 2) bugfixTask sampleProject bugfixFastFlow "T-1"
           (worldOf failingCoder (runAt bugfixFastFlow "implement" in_progress))
           (runAt bugfixFastFlow "implement" in_progress) _
           (JsError "CoderAgent.run is not implemented. Integrate with your LLM/orchestrator here.")).
  vm_compute. reflexivity.
Defined.

(** X4: when the loop ends with an error, the run of the task is not left
    completed or waiting for a human: the error came up in a pass the
    guard had let through, and a failing pass does not touch the run. *)
Theorem failed_loop_leaves_run_open
    selectArtifactsForStep buildExecutionContext writeOk updateState
    t pc wf tid fuel w w' e st :
  loop selectArtifactsForStep buildExecutionContext writeOk updateState
       t pc wf tid fuel w = (w', Throw e) ->
  runs w' !! tid = Some st ->
  status st <> completed /\ status st <> waiting_human.
Proof.
  intros Hloop Hst.
  pose proof (loop_throw_open _ _ _ _ _ _ _ _ _ _ _ _ _ Hloop Hst) as Hg.
  split; intros Hs; rewrite Hs in Hg; discriminate.
Qed.

(** Plan succeeds, the coder throws: the loop ends with the coder's error
    and the run is in progress at Implement. *)
Lemma failed_loop_leaves_run_open_witness :
  status (runAt bugfixFastFlow "implement" in_progress) <> completed /\
  status (runAt bugfixFastFlow "implement" in_progress) <> waiting_human.
Proof.
  apply (failed_loop_leaves_run_open allArtifactsOfTask sampleContext everyWriteOk
           (updateStateWith 2) bugfixTask sampleProject bugfixFastFlow "T-1" 5
           (worldOf failingCoder (runAt bugfixFastFlow "implement" in_progress))
           (logEvent (WorkerInvoked "implement" Coder)
              (worldOf failingCoder (runAt bugfixFastFlow "implement" in_progress)))
           (JsError "CoderAgent.run is not implemented. Integrate with your LLM/orchestrator here.")).
  - vm_compute. reflexivity.
  - vm_compute. reflexivity.
Defined.

(** X6: the run the loop returns is the one stored for the task, and
    entering the loop again on the world it left, with any fuel, returns
    the same run and changes nothing: a completed run and a run waiting
    for a human are not taken up again by the loop. *)
Theorem loop_is_idempotent
    selectArtifactsForStep buildExecutionContext writeOk updateState
    t pc wf tid fuel w w' st :
  loop selectArtifactsForStep buildExecutionContext writeOk updateState
       t pc wf tid fuel w = (w', Ok st) ->
  runs w' !! tid = Some st /\
  forall fuel',
    loop selectArtifactsForStep buildExecutionContext writeOk updateState
         t pc wf tid fuel' w' = (w', Ok st).
Proof.
  intros Hloop.
  pose proof (loop_ok_stored _ _ _ _ _ _ _ _ _ _ _ _ Hloop) as Hst.
  split; [exact Hst|]. intros fuel'.
  apply loop_stops; [exact Hst|].
  apply loopGuard_false. by apply loop_returns_halted in Hloop.
Qed.

(** Scenario A: the world the loop left is a fixed point of the loop. *)
Lemma loop_is_idempotent_witness :
  sampleLoop bugfixFastFlow 0 scenarioAEnd = (scenarioAEnd, Ok (storedRun scenarioAEnd)).
Proof.
  apply (proj2 (loop_is_idempotent allArtifactsOfTask sampleContext everyWriteOk
                  (updateStateWith 2) bugfixTask sampleProject bugfixFastFlow "T-1"
                  3 scenarioAStart scenarioAEnd (storedRun scenarioAEnd)
                  ltac:(vm_compute; reflexivity))).
Defined.

(** * The enrollment category of the salary queries *)

Lemma enrollmentCase_cases (small medium large : string) (e : option Z) :
  (e = None /\ Sql.enrollmentCase small medium large e = Some "Unknown") \/
  (exists n, e = Some n /\ (n < 5000)%Z /\
             Sql.enrollmentCase small medium large e = Some small) \/
  (exists n, e = Some n /\ (5000 <= n <= 20000)%Z /\
             Sql.enrollmentCase small medium large e = Some medium) \/
  (exists n, e = Some n /\ (20000 < n)%Z /\
             Sql.enrollmentCase small medium large e = Some large).
Proof.
  destruct e as [n|]; [right|left; split; reflexivity].
  unfold Sql.enrollmentCase. simpl.
  destruct (Z.ltb_spec n 5000); simpl.
  - left. exists n. auto.
  - destruct (Z.leb_spec 5000 n); [|lia]. simpl.
    destruct (Z.leb_spec n 20000); simpl.
    + right. left. exists n. auto.
    + right. right. exists n. destruct (Z.ltb_spec 20000 n); [|lia]. auto with zarith.
Qed.

(** X7: in both queries the enrollment category is never NULL, so the
    filter [enrollment_category IS NOT NULL] keeps every school; it is
    'Unknown' exactly when the enrollment is NULL, and a known enrollment
    falls in exactly one of the three size classes: small below 5000,
    medium from 5000 to 20000 inclusive, large above 20000.  The two
    queries class every enrollment alike. *)
Theorem enrollment_category_classes (e : option Z) :
  Sql.isNotNull (Sql.enrollment_category e) = true /\
  Sql.isNotNull (Sql.enrollment_category_api e) = true /\
  (Sql.enrollment_category e = Some "Unknown" <-> e = None) /\
  (Sql.enrollment_category e = Some "Small (<5k)" <->
     exists n, e = Some n /\ (n < 5000)%Z) /\
  (Sql.enrollment_category e = Some "Medium (5k–20k)" <->
     exists n, e = Some n /\ (5000 <= n <= 20000)%Z) /\
  (Sql.enrollment_category e = Some "Large (20k+)" <->
     exists n, e = Some n /\ (20000 < n)%Z) /\
  (Sql.enrollment_category_api e = Some "Unknown" <->
     Sql.enrollment_category e = Some "Unknown") /\
  (Sql.enrollment_category_api e = Some "Small (<5k Enrollment)" <->
     Sql.enrollment_category e = Some "Small (<5k)") /\
  (Sql.enrollment_category_api e = Some "Medium (5k–20k Enrollment)" <->
     Sql.enrollment_category e = Some "Medium (5k–20k)") /\
  (Sql.enrollment_category_api e = Some "Large (20k+ Enrollment)" <->
     Sql.enrollment_category e = Some "Large (20k+)").
Proof.
  unfold Sql.enrollment_category, Sql.enrollment_category_api.
  destruct (enrollmentCase_cases "Small (<5k)" "Medium (5k–20k)" "Large (20k+)" e)
    as [(He & ->)|[(n & He & Hn & ->)|[(n & He & Hn & ->)|(n & He & Hn & ->)]]];
  destruct (enrollmentCase_cases "Small (<5k Enrollment)" "Medium (5k–20k Enrollment)"
                                 "Large (20k+ Enrollment)" e)
    as [(He' & ->)|[(n' & He' & Hn' & ->)|[(n' & He' & Hn' & ->)|(n' & He' & Hn' & ->)]]];
  subst; try discriminate;
  try (injection He' as <-; try lia);
  repeat split; try reflexivity; try discriminate;
    try (intros (k & Hk & Hlt); first [discriminate | injection Hk as <-; lia]);
    try (intros _; exists n; split; [reflexivity|lia]);
    try (intros [= ?]; fail).
Qed.

(** * The setup script *)

Lemma reportsStep_lookup (fs : gmap string Setup.Node) (p : string) :
  p <> "reports" -> fst (Setup.reportsStep fs) !! p = fs !! p.
Proof.
  intros Hne. unfold Setup.reportsStep, Setup.mkdir.
  destruct (negb (Setup.isDir fs "reports")); [|reflexivity]. simpl.
  destruct (fs !! "reports"); [reflexivity|]. by rewrite lookup_insert_ne.
Qed.

Lemma reportsStep_reports (fs : gmap string Setup.Node) :
  fst (Setup.reportsStep fs) !! "reports" =
  match fs !! "reports" with
  | Some n => Some n
  | None => Some Setup.Dir
  end.
Proof.
  unfold Setup.reportsStep, Setup.mkdir, Setup.isDir.
  destruct (fs !! "reports") as [[c|]|] eqn:Hr; simpl; rewrite ?Hr; try reflexivity.
  by rewrite lookup_insert_eq.
Qed.

Lemma reportsStep_keeps (fs : gmap string Setup.Node) (p : string) (n : Setup.Node) :
  fs !! p = Some n -> fst (Setup.reportsStep fs) !! p = Some n.
Proof.
  intros Hp. destruct (decide (p = "reports")) as [->|Hne].
  - by rewrite reportsStep_reports, Hp.
  - by rewrite reportsStep_lookup.
Qed.

Lemma configStep_lookup (fs : gmap string Setup.Node) (p : string) :
  p <> "config.ini" ->
  p <> "config.ini/config.ini.example" ->
  fst (Setup.configStep fs) !! p = fs !! p.
Proof.
  intros Hcfg Hsp. unfold Setup.configStep, Setup.isFile, Setup.cp.
  change ("config.ini" +:+ "/" +:+ "config.ini.example")
    with "config.ini/config.ini.example".
  destruct (fs !! "config.ini") as [[c|]|]; cbn [negb fst]; try reflexivity;
    destruct (fs !! "config.ini.example") as [[e|]|]; try reflexivity;
    try destruct (fs !! "config.ini/config.ini.example") as [[d|]|]; try reflexivity;
    by rewrite lookup_insert_ne.
Qed.

Lemma configStep_config (fs : gmap string Setup.Node) :
  fst (Setup.configStep fs) !! "config.ini" =
  match fs !! "config.ini", fs !! "config.ini.example" with
  | None, Some (Setup.File content) => Some (Setup.File content)
  | here, _ => here
  end.
Proof.
  unfold Setup.configStep, Setup.isFile, Setup.cp.
  change ("config.ini" +:+ "/" +:+ "config.ini.example")
    with "config.ini/config.ini.example".
  destruct (fs !! "config.ini") as [[c|]|] eqn:Hc; cbn [negb fst]; rewrite ?Hc;
    try reflexivity;
    destruct (fs !! "config.ini.example") as [[e|]|]; rewrite ?Hc; try reflexivity;
    try destruct (fs !! "config.ini/config.ini.example") as [[d|]|]; rewrite ?Hc;
    try reflexivity.
  all: first [ by rewrite lookup_insert_eq | by rewrite lookup_insert_ne ].
Qed.

Lemma configStep_copy (fs : gmap string Setup.Node) :
  fst (Setup.configStep fs) !! "config.ini/config.ini.example" =
  match fs !! "config.ini", fs !! "config.ini.example",
        fs !! "config.ini/config.ini.example" with
  | Some Setup.Dir, Some (Setup.File content), Some Setup.Dir => Some Setup.Dir
  | Some Setup.Dir, Some (Setup.File content), _ => Some (Setup.File content)
  | _, _, there => there
  end.
Proof.
  unfold Setup.configStep, Setup.isFile, Setup.cp.
  change ("config.ini" +:+ "/" +:+ "config.ini.example")
    with "config.ini/config.ini.example".
  destruct (fs !! "config.ini") as [[c|]|] eqn:Hc; cbn [negb fst];
    destruct (fs !! "config.ini.example") as [[e|]|] eqn:He;
    destruct (fs !! "config.ini/config.ini.example") as [[d|]|] eqn:Hd;
    rewrite ?Hd; try reflexivity;
    first [ by rewrite lookup_insert_eq | by rewrite lookup_insert_ne ].
Qed.

Lemma configStep_keeps (fs : gmap string Setup.Node) (p : string) (n : Setup.Node) :
  p <> "config.ini/config.ini.example" ->
  fs !! p = Some n -> fst (Setup.configStep fs) !! p = Some n.
Proof.
  intros Hne Hp. destruct (decide (p = "config.ini")) as [->|Hcfg].
  - rewrite configStep_config, Hp.
    destruct n, (fs !! "config.ini.example") as [[e|]|]; reflexivity.
  - by rewrite configStep_lookup.
Qed.

Lemma In_eqb (line : string) (l : list string) :
  In line l <-> existsb (String.eqb line) l = true.
Proof.
  rewrite existsb_exists. split.
  - intros Hin. exists line. split; [exact Hin|apply String.eqb_refl].
  - intros (y & Hin & Heq). apply String.eqb_eq in Heq. by subst.
Qed.

Lemma setup_failed_python (x : Setup.Externals) (fs : gmap string Setup.Node) :
  Setup.pythonStatus x <> 0%Z ->
  Setup.setup x fs =
  (fs, (Setup.banner ++ ["Checking Python version..."]
          ++ ["Error: Python 3 is not installed"])%list, 1%Z).
Proof.
  intros Hpy. unfold Setup.setup.
  destruct (Z.eqb_spec (Setup.pythonStatus x) 0); [contradiction|]. reflexivity.
Qed.

Lemma setup_succeeded (x : Setup.Externals) (fs : gmap string Setup.Node) :
  Setup.pythonStatus x = 0%Z ->
  snd (Setup.pip x (fst (Setup.venvStep x fs))) = 0%Z ->
  exists before,
    Setup.setup x fs =
    (fst (Setup.reportsStep (fst (Setup.configStep (Setup.installed x fs)))),
     (before ++ snd (Setup.configStep (Setup.installed x fs)) ++ [""]
        ++ snd (Setup.reportsStep (fst (Setup.configStep (Setup.installed x fs))))
        ++ Setup.closing)%list,
     0%Z) /\
    ~ In "Config file created: config.ini" before.
Proof.
  intros Hpy Hpip.
  exists (((((Setup.banner ++ ["Checking Python version..."]) ++ [""])
             ++ snd (Setup.venvStep x fs) ++ [""; "Installing Python dependencies..."])
            ++ [""; "Dependencies installed successfully!"; ""])%list).
  split.
  - unfold Setup.setup, Setup.installed. rewrite Hpy.
    change (negb (0 =? 0)%Z) with false. cbv iota.
    destruct (Setup.venvStep x fs) as [fs1 lines]. cbn [fst snd] in Hpip |- *.
    destruct (Setup.pip x fs1) as [fs2 status]. cbn [fst snd] in Hpip |- *.
    subst status. change (negb (0 =? 0)%Z) with false. cbv iota.
    destruct (Setup.configStep fs2) as [fs3 clines]. cbn [fst snd].
    destruct (Setup.reportsStep fs3) as [fs4 rlines]. cbn [fst snd].
    f_equal. f_equal. rewrite <- !app_assoc. reflexivity.
  - rewrite In_eqb. unfold Setup.venvStep.
    destruct (_ || _); vm_compute; discriminate.
Qed.

Lemma provision_again (fs : gmap string Setup.Node) :
  let provision := fun g => fst (Setup.reportsStep (fst (Setup.configStep g))) in
  provision (provision fs) = provision fs.
Proof.
  cbv zeta. apply map_eq. intros p.
  set (fs1 := fst (Setup.reportsStep (fst (Setup.configStep fs)))).
  assert (Hcfg : fs1 !! "config.ini" = fst (Setup.configStep fs) !! "config.ini")
    by (apply reportsStep_lookup; discriminate).
  assert (Hex : fs1 !! "config.ini.example" = fs !! "config.ini.example").
  { unfold fs1. rewrite reportsStep_lookup by discriminate.
    apply configStep_lookup; discriminate. }
  assert (Hcopy : fs1 !! "config.ini/config.ini.example" =
                  fst (Setup.configStep fs) !! "config.ini/config.ini.example")
    by (apply reportsStep_lookup; discriminate).
  assert (Hrep : is_Some (fs1 !! "reports")).
  { unfold fs1. rewrite reportsStep_reports. destruct (_ !! "reports"); eauto. }
  assert (Hconfig : fst (Setup.configStep fs1) = fs1).
  { rewrite configStep_config in Hcfg. rewrite configStep_copy in Hcopy.
    unfold Setup.configStep, Setup.isFile, Setup.cp.
    change ("config.ini" +:+ "/" +:+ "config.ini.example")
      with "config.ini/config.ini.example".
    rewrite Hex, Hcfg, Hcopy.
    destruct (fs !! "config.ini") as [[c|]|];
      destruct (fs !! "config.ini.example") as [[e|]|];
      destruct (fs !! "config.ini/config.ini.example") as [[d|]|] eqn:Hd;
      cbn [negb fst] in *; try reflexivity;
      apply insert_id; rewrite Hcopy; reflexivity. }
  rewrite Hconfig.
  destruct (decide (p = "reports")) as [->|Hne].
  - rewrite reportsStep_reports. destruct Hrep as [n ->]. reflexivity.
  - by rewrite reportsStep_lookup.
Qed.

Lemma setup_status_zero (x : Setup.Externals) (fs : gmap string Setup.Node) :
  snd (Setup.setup x fs) = 0%Z ->
  Setup.pythonStatus x = 0%Z /\
  snd (Setup.pip x (fst (Setup.venvStep x fs))) = 0%Z.
Proof.
  unfold Setup.setup.
  destruct (Z.eqb_spec (Setup.pythonStatus x) 0) as [Hpy|Hpy]; cbn [negb];
    [|cbn [snd]; discriminate].
  destruct (Setup.venvStep x fs) as [fs1 lines]. cbn [fst].
  destruct (Setup.pip x fs1) as [fs2 status]. cbn [snd].
  destruct (Z.eqb_spec status 0) as [Hst|Hst]; cbn [negb]; [auto|cbn [snd]; discriminate].
Qed.

(** X8: the setup script exits with 1 when [python3 --version] or
    [pip install] fails and with 0 otherwise.  Without Python it leaves
    the directory untouched; with Python, whatever the external commands
    left in the directory is still there, unchanged, at the end of the
    script (an existing config.ini is never overwritten, an existing
    reports entry never replaced), save the one path
    config.ini/config.ini.example, written when config.ini is a
    directory. *)
Theorem setup_keeps_what_exists (x : Setup.Externals) (fs : gmap string Setup.Node) :
  (snd (Setup.setup x fs) = 0%Z <->
     Setup.pythonStatus x = 0%Z /\
     snd (Setup.pip x (fst (Setup.venvStep x fs))) = 0%Z) /\
  (snd (Setup.setup x fs) <> 0%Z -> snd (Setup.setup x fs) = 1%Z) /\
  (Setup.pythonStatus x <> 0%Z -> fst (fst (Setup.setup x fs)) = fs) /\
  (Setup.pythonStatus x = 0%Z ->
   forall p n,
     p <> "config.ini/config.ini.example" ->
     Setup.installed x fs !! p = Some n ->
     fst (fst (Setup.setup x fs)) !! p = Some n).
Proof.
  destruct (Z.eq_dec (Setup.pythonStatus x) 0%Z) as [Hpy|Hpy].
  - destruct (Z.eq_dec (snd (Setup.pip x (fst (Setup.venvStep x fs)))) 0%Z) as [Hpip|Hpip].
    + destruct (setup_succeeded x fs Hpy Hpip) as (before & -> & _). cbn [fst snd].
      split; [tauto|]. split; [intros H; by destruct H|]. split; [intros H; by destruct H|].
      intros _ p n Hne Hp. by apply reportsStep_keeps, configStep_keeps.
    + assert (Hfail : fst (fst (Setup.setup x fs)) = Setup.installed x fs /\
                      snd (Setup.setup x fs) = 1%Z).
      { unfold Setup.setup, Setup.installed. rewrite Hpy.
        change (negb (0 =? 0)%Z) with false. cbv iota.
        destruct (Setup.venvStep x fs) as [fs1 lines]. cbn [fst snd] in Hpip |- *.
        destruct (Setup.pip x fs1) as [fs2 status]. cbn [fst snd] in Hpip |- *.
        destruct (Z.eqb_spec status 0); [contradiction|]. cbn [negb fst snd]. auto. }
      destruct Hfail as [Hfs Hst]. rewrite Hfs, Hst.
      split; [split; [discriminate|tauto]|]. split; [reflexivity|].
      split; [intros H; by destruct H|]. auto.
  - rewrite (setup_failed_python x fs Hpy). cbn [fst snd].
    split; [split; [discriminate|tauto]|]. split; [reflexivity|].
    split; [reflexivity|]. intros H; by destruct Hpy.
Qed.

(** A configured directory keeps its edited config.ini. *)
Lemma setup_keeps_what_exists_witness :
  fst (fst (Setup.setup (Setup.quiet "y") configuredCheckout)) !! "config.ini"
  = Some (Setup.File "[database] host=db.acadexis").
Proof.
  apply (proj2 (proj2 (proj2 (setup_keeps_what_exists (Setup.quiet "y")
                                configuredCheckout)))).
  - reflexivity.
  - discriminate.
  - vm_compute. reflexivity.
Defined.

(** X9: what a successful run of the setup script leaves.  There is a
    reports entry, a directory if there was none; config.ini is the copy
    of config.ini.example if nothing was there and the example is a
    regular file, and otherwise what it was.  The script says
    "Config file created: config.ini" exactly when config.ini was not a
    regular file, whether or not the copy was made: without an example
    file it says so and there is still no config.ini. *)
Theorem setup_success_state (x : Setup.Externals) (fs : gmap string Setup.Node) :
  Setup.pythonStatus x = 0%Z ->
  snd (Setup.pip x (fst (Setup.venvStep x fs))) = 0%Z ->
  let before := Setup.installed x fs in
  let after := fst (fst (Setup.setup x fs)) in
  let out := snd (fst (Setup.setup x fs)) in
  after !! "reports" =
    match before !! "reports" with
    | Some n => Some n
    | None => Some Setup.Dir
    end /\
  after !! "config.ini" =
    match before !! "config.ini", before !! "config.ini.example" with
    | None, Some (Setup.File content) => Some (Setup.File content)
    | here, _ => here
    end /\
  (In "Config file created: config.ini" out <->
   Setup.isFile before "config.ini" = false) /\
  (Setup.isFile before "config.ini" = false ->
   Setup.isFile before "config.ini.example" = false ->
   In "Config file created: config.ini" out /\
   Setup.isFile after "config.ini" = false).
Proof.
  intros Hpy Hpip. cbv zeta.
  destruct (setup_succeeded x fs Hpy Hpip) as (lines & -> & Hbefore). simpl.
  set (before := Setup.installed x fs).
  assert (Hrep : fst (Setup.reportsStep (fst (Setup.configStep before))) !! "reports" =
                 match before !! "reports" with
                 | Some n => Some n
                 | None => Some Setup.Dir
                 end).
  { rewrite reportsStep_reports.
    destruct (before !! "reports") as [n|] eqn:Hr.
    - by rewrite (configStep_keeps before "reports" n ltac:(discriminate) Hr).
    - assert (Hnone : fst (Setup.configStep before) !! "reports" = None); [|by rewrite Hnone].
      rewrite configStep_lookup by discriminate. exact Hr. }
  assert (Hcfg : fst (Setup.reportsStep (fst (Setup.configStep before))) !! "config.ini" =
                 match before !! "config.ini", before !! "config.ini.example" with
                 | None, Some (Setup.File content) => Some (Setup.File content)
                 | here, _ => here
                 end).
  { rewrite reportsStep_lookup by discriminate. apply configStep_config. }
  assert (Hmsg : In "Config file created: config.ini"
                    (lines ++ snd (Setup.configStep before) ++ [""]
                       ++ snd (Setup.reportsStep (fst (Setup.configStep before)))
                       ++ Setup.closing)%list
                 <-> Setup.isFile before "config.ini" = false).
  { rewrite !in_app_iff, !In_eqb. rewrite In_eqb in Hbefore.
    unfold Setup.configStep, Setup.reportsStep.
    destruct (Setup.isFile before "config.ini"); cbn [negb snd fst];
      destruct (Setup.isDir _ "reports"); cbn [negb snd fst];
      repeat match goal with
             | |- context [existsb (String.eqb ?m) ?l] =>
                 tryif is_var l then fail
                 else (let b := eval vm_compute in (existsb (String.eqb m) l) in
                       change (existsb (String.eqb m) l) with b)
             end;
      intuition (try discriminate; try congruence). }
  split; [exact Hrep|]. split; [exact Hcfg|]. split; [exact Hmsg|].
  intros Hno Hex. split; [by apply Hmsg|].
  unfold Setup.isFile in *. rewrite Hcfg.
  destruct (before !! "config.ini") as [[c|]|]; try discriminate; try reflexivity.
  destruct (before !! "config.ini.example") as [[e|]|]; try discriminate; reflexivity.
Qed.

(** A checkout without config.ini.example: the script claims to have
    created config.ini, and there is none. *)
Lemma setup_success_state_witness :
  In "Config file created: config.ini"
     (snd (fst (Setup.setup (Setup.quiet "n") checkoutWithoutExample))) /\
  Setup.isFile (fst (fst (Setup.setup (Setup.quiet "n") checkoutWithoutExample)))
               "config.ini" = false.
Proof.
  apply (proj2 (proj2 (proj2 (setup_success_state (Setup.quiet "n") checkoutWithoutExample
                                eq_refl eq_refl)))).
  - vm_compute. reflexivity.
  - vm_compute. reflexivity.
Defined.

(** X10: running the setup script again is safe.  On the directory a
    successful run left, a further run in which the external commands
    succeed and change nothing exits with 0 and leaves the directory
    exactly as it found it. *)
Theorem setup_rerun_changes_nothing (x : Setup.Externals)
    (fs fs1 : gmap string Setup.Node) (out : list string) (answer : string) :
  Setup.setup x fs = (fs1, out, 0%Z) ->
  fst (fst (Setup.setup (Setup.quiet answer) fs1)) = fs1 /\
  snd (Setup.setup (Setup.quiet answer) fs1) = 0%Z.
Proof.
  intros Hrun.
  assert (Hok : Setup.pythonStatus x = 0%Z /\
                snd (Setup.pip x (fst (Setup.venvStep x fs))) = 0%Z).
  { apply (setup_status_zero x fs). by rewrite Hrun. }
  destruct Hok as [Hpy Hpip].
  destruct (setup_succeeded x fs Hpy Hpip) as (lines & Heq & _).
  rewrite Heq in Hrun. injection Hrun as Hfs _.
  assert (Hquiet : Setup.installed (Setup.quiet answer) fs1 = fs1).
  { unfold Setup.installed, Setup.venvStep, Setup.quiet. simpl.
    destruct (_ || _); reflexivity. }
  destruct (setup_succeeded (Setup.quiet answer) fs1 eq_refl eq_refl)
    as (lines' & -> & _).
  simpl. split; [|reflexivity]. rewrite Hquiet, <- Hfs.
  apply provision_again.
Qed.

(** A fresh checkout is set up with a virtual environment; a second run
    without one leaves the directory as the first run left it. *)
Lemma setup_rerun_changes_nothing_witness :
  fst (fst (Setup.setup (Setup.quiet "n")
              (fst (fst (Setup.setup (Setup.quiet "y") freshCheckout)))))
  = fst (fst (Setup.setup (Setup.quiet "y") freshCheckout)).
Proof.
  apply (proj1 (setup_rerun_changes_nothing (Setup.quiet "y") freshCheckout
                  (fst (fst (Setup.setup (Setup.quiet "y") freshCheckout)))
                  (snd (fst (Setup.setup (Setup.quiet "y") freshCheckout)))
                  "n" ltac:(vm_compute; reflexivity))).
Defined.

(** The first run on a fresh checkout copies the example configuration
    and makes the reports directory. *)
Example setup_fresh_checkout :
  fst (fst (Setup.setup (Setup.quiet "y") freshCheckout))
  = {[ "config.ini.example" := Setup.File "[database]";
       "requirements.txt" := Setup.File "psycopg2";
       "config.ini" := Setup.File "[database]";
       "reports" := Setup.Dir ]} /\
  snd (Setup.setup (Setup.quiet "y") freshCheckout) = 0%Z.
Proof. vm_compute. split; reflexivity. Qed.

(** * The retry budget on the orchestrator flow

    The loop, its body and its guard are the template's; [updateState] is
    the state update of the specification, [Engine.updateState]. *)

Section BudgetOnTheFlow.

Variable selectArtifactsForStep :
  WorkflowStep -> Task -> gmap string (list Artifact) -> list Artifact.
Variable buildExecutionContext : ProjectConfig -> ExecutionContext.
Variable writeOk : Artifact -> bool.
Variable t : Task.
Variable pc : ProjectConfig.
Variable wf : Workflow.
Variable maxRetries : WorkflowStep -> nat.
Variable tid : string.

Local Abbreviation budgeted :=
  (loop selectArtifactsForStep buildExecutionContext writeOk
        (Engine.updateState wf maxRetries) t pc wf tid).
Local Abbreviation agentInputAt step w :=
  {| task := t;
     artifacts := selectArtifactsForStep step t (artifactStore w);
     context := buildExecutionContext pc |}.

(** A pass whose worker returns and whose artifacts are persisted. *)
Lemma loopBody_pass updateState w state step out :
  lookupStep wf (currentStepId state) = Some step ->
  run (getAgentByRole (registry w) (agentRole step)) (agentInputAt step w) = Ok out ->
  forallb writeOk (newArtifacts out) = true ->
  exists w',
    loopBody selectArtifactsForStep buildExecutionContext writeOk updateState
             t pc wf tid w state = (w', Ok tt) /\
    runs w' = <[tid := updateState state (transition step out)]> (runs w) /\
    registry w' = registry w.
Proof.
  intros Hstep Hrun Hall. unfold loopBody. rewrite Hstep, Hrun.
  rewrite (applyOutput_stores _ _ _ _ _ _ _ Hall).
  eexists. split; [reflexivity|]. split; reflexivity.
Qed.

(** A pass whose worker throws ends the loop with the worker's error. *)
Lemma loop_worker_fault updateState fuel w state step e :
  runs w !! tid = Some state ->
  loopGuard (status state) = true ->
  lookupStep wf (currentStepId state) = Some step ->
  run (getAgentByRole (registry w) (agentRole step)) (agentInputAt step w) = Throw e ->
  loop selectArtifactsForStep buildExecutionContext writeOk updateState
       t pc wf tid (S fuel) w
  = (logEvent (WorkerInvoked (step_id step) (agentRole step)) w, Throw e).
Proof.
  intros Hst Hg Hstep Hrun.
  rewrite (loop_goes_on _ _ _ _ _ _ _ _ _ _ _ Hst Hg).
  unfold loopBody. by rewrite Hstep, Hrun.
Qed.

Lemma updateState_withinBudget st d :
  Engine.withinBudget wf maxRetries st ->
  Engine.withinBudget wf maxRetries (Engine.updateState wf maxRetries st d).
Proof.
  intros Hinv. unfold Engine.updateState.
  destruct (lookupStep wf (currentStepId st)) as [step|] eqn:Hstep; [|exact Hinv].
  by apply applyDecision_withinBudget.
Qed.

Lemma freshRunState_withinBudget tid' :
  Engine.withinBudget wf maxRetries (freshRunState tid' wf).
Proof.
  intros sid step _. unfold retryCount, freshRunState. simpl.
  rewrite lookup_empty. simpl. lia.
Qed.

(** The budget is an invariant of the loop, however it ends. *)
Lemma loop_withinBudget fuel : forall w state,
  runs w !! tid = Some state ->
  Engine.withinBudget wf maxRetries state ->
  exists state',
    runs (fst (budgeted fuel w)) !! tid = Some state' /\
    Engine.withinBudget wf maxRetries state'.
Proof.
  induction fuel as [|fuel IH]; intros w state Hst Hinv; rewrite loop_unfold, Hst;
    destruct (loopGuard (status state)); try (by exists state).
  destruct (loopBody _ _ _ _ _ _ _ _ w state) as [w' [u|e]] eqn:Hbody.
  - apply loopBody_ok_runs in Hbody as [d Hruns].
    apply (IH w' (Engine.updateState wf maxRetries state d)).
    + rewrite Hruns. apply lookup_insert_eq.
    + by apply updateState_withinBudget.
  - apply loopBody_throw_runs in Hbody. cbn [fst]. rewrite Hbody. by exists state.
Qed.

Lemma applyDecision_repeatEdge max d st :
  Engine.repeatEdge st d ->
  Engine.applyDecision max d st =
  Engine.repeatStep max (statusOf (decision_status d)) None st.
Proof.
  destruct d as [next s]. intros (Hnext & Hwait & Hblocked). simpl in *. subst next.
  unfold Engine.applyDecision. simpl. rewrite String.eqb_refl.
  destruct s; try reflexivity; congruence.
Qed.

(** A repeat edge at a step whose budget is used up. *)
Lemma loop_exhausted_repeat fuel w state step out :
  runs w !! tid = Some state ->
  loopGuard (status state) = true ->
  lookupStep wf (currentStepId state) = Some step ->
  run (getAgentByRole (registry w) (agentRole step)) (agentInputAt step w) = Ok out ->
  forallb writeOk (newArtifacts out) = true ->
  Engine.repeatEdge state (transition step out) ->
  (Z.of_nat (maxRetries step) < retryCount state (currentStepId state) + 1)%Z ->
  exists w',
    budgeted (S fuel) w =
    (w', Ok (record (RetryBudgetExceeded None) (setStatus waiting_human state))).
Proof.
  intros Hst Hg Hstep Hrun Hall Hedge Hmax.
  destruct (loopBody_pass (Engine.updateState wf maxRetries) w state step out
              Hstep Hrun Hall) as (w' & Hbody & Hruns & _).
  exists w'. rewrite (loop_goes_on _ _ _ _ _ _ _ _ _ _ _ Hst Hg), Hbody.
  apply loop_stops; [|reflexivity].
  rewrite Hruns, lookup_insert_eq. unfold Engine.updateState. rewrite Hstep.
  rewrite (applyDecision_repeatEdge _ _ _ Hedge).
  by rewrite repeatStep_exhausted.
Qed.

(** A step whose rule always asks for a repeat: [n] retries are left. *)
Lemma loop_spinning step (n : nat) : forall fuel w state,
  runs w !! tid = Some state ->
  status state = in_progress ->
  lookupStep wf (currentStepId state) = Some step ->
  (forall out, nextStepId (transition step out) = Some (currentStepId state) /\
               decision_status (transition step out) = DInProgress) ->
  (forall input, exists out,
      run (getAgentByRole (registry w) (agentRole step)) input = Ok out /\
      forallb writeOk (newArtifacts out) = true) ->
  Z.to_nat (Z.of_nat (maxRetries step) - retryCount state (currentStepId state)) = n ->
  (n < fuel)%nat ->
  exists w' st',
    budgeted fuel w = (w', Ok st') /\
    status st' = waiting_human /\
    currentStepId st' = currentStepId state /\
    retryCount st' (currentStepId state) =
      Z.max (retryCount state (currentStepId state)) (Z.of_nat (maxRetries step)).
Proof.
  induction n as [|n IH]; intros fuel w state Hst Hs Hstep Hrule Hagent Hn Hfuel;
    (destruct fuel as [|fuel]; [lia|]);
    destruct (Hagent (agentInputAt step w)) as (out & Hrun & Hall);
    destruct (Hrule out) as [Hnext Hdec];
    assert (Hedge : Engine.repeatEdge state (transition step out))
      by (split; [exact Hnext|rewrite Hdec; split; discriminate]);
    assert (Hg : loopGuard (status state) = true) by (by rewrite Hs).
  - destruct (loop_exhausted_repeat fuel w state step out Hst Hg Hstep Hrun Hall Hedge)
      as [w' Hloop]; [lia|].
    exists w', (record (RetryBudgetExceeded None) (setStatus waiting_human state)).
    split; [exact Hloop|]. split; [reflexivity|]. split; [reflexivity|].
    change (retryCount state (currentStepId state) =
            Z.max (retryCount state (currentStepId state)) (Z.of_nat (maxRetries step))).
    lia.
  - destruct (loopBody_pass (Engine.updateState wf maxRetries) w state step out
                Hstep Hrun Hall) as (w1 & Hbody & Hruns & Hreg).
    rewrite (loop_goes_on _ _ _ _ _ _ _ _ _ _ _ Hst Hg), Hbody.
    set (c := retryCount state (currentStepId state)) in *.
    set (st1 := record (Retried None)
                  (setStatus in_progress (setRetry (currentStepId state) (c + 1)%Z state))).
    assert (Hst1 : runs w1 !! tid = Some st1).
    { rewrite Hruns, lookup_insert_eq. unfold Engine.updateState. rewrite Hstep.
      rewrite (applyDecision_repeatEdge _ _ _ Hedge), Hdec.
      rewrite repeatStep_retries; [reflexivity|]. fold c. lia. }
    assert (Hc1 : retryCount st1 (currentStepId state) = (c + 1)%Z).
    { change (retryCount (setRetry (currentStepId state) (c + 1)%Z state)
                         (currentStepId state) = (c + 1)%Z).
      rewrite retryCount_setRetry. by case_decide. }
    destruct (IH fuel w1 st1) as (w' & st' & Hloop & Hs' & Hid & Hcount);
      try assumption; try reflexivity.
    + by rewrite Hreg.
    + change (currentStepId st1) with (currentStepId state). rewrite Hc1. lia.
    + lia.
    + exists w', st'. split; [exact Hloop|]. split; [exact Hs'|].
      split; [exact Hid|].
      change (currentStepId st1) with (currentStepId state) in Hcount.
      rewrite Hcount, Hc1. lia.
Qed.

End BudgetOnTheFlow.

(** C1, as stated, fails on the orchestrator flow at a worker fault.  The
    Implement step of the run has used its two retries of two when the
    coder throws: the loop ends with the coder's error and the run is
    stored as it was, in progress.  From a fresh run and with no retry
    allowed, [handleTask] ends the same way at the Implement step. *)
Lemma worker_fault_is_not_retried :
  let fault := JsError
    "CoderAgent.run is not implemented. Integrate with your LLM/orchestrator here." in
  let r := budgetLoop spinningFlow twoRetries 5 (worldOf failingCoder exhaustedRun) in
  let h := handleTask loadSampleTask loadSampleProject sampleDefinitions
             allArtifactsOfTask sampleContext everyWriteOk
             (Engine.updateState bugfixFastFlow noRetries)
             10 "T-1" (emptyWorld failingCoder) in
  runs (fst (budgetLoop spinningFlow twoRetries 2
               (worldOf planningAgents (runAt spinningFlow "implement" in_progress))))
    !! "T-1" = Some exhaustedRun /\
  retryCount exhaustedRun "implement" = Z.of_nat (twoRetries
    (mkWorkflowStep "implement" "Implement" Coder (alwaysRepeat "implement"))) /\
  snd r = Throw fault /\
  runs (fst r) !! "T-1" = Some exhaustedRun /\
  status exhaustedRun <> waiting_human /\
  snd h = Throw fault /\
  (currentStepId <$> runs (fst h) !! "T-1") = Some "implement" /\
  (status <$> runs (fst h) !! "T-1") = Some in_progress /\
  (retries <$> runs (fst h) !! "T-1") = Some ∅.
Proof.
  cbv zeta. repeat split; try (vm_compute; reflexivity).
  vm_compute. discriminate.
Qed.

(** C1, amended: the orchestrator flow neither retries nor counts a
    worker fault, and the retry budget is that of the state update.

    - When the worker of the current step throws, the loop ends in that
      pass with the worker's error, whatever [updateState] is, and the
      stored run is what it was: its status, retry counters and history
      are untouched and it does not become waiting_human.
    - With the state update of the specification: a new run is within
      budget, and a run stored within budget (every step's counter between
      0 and the step's maximum) is within budget after the loop, however
      the loop ends.
    - A repeat edge that would push the counter of the step past its
      maximum ends the loop: the run returned is the stored one with
      status waiting_human, whatever status the rule asked for, a
      RetryBudgetExceeded entry and the counters unchanged.
    - A step whose rule always asks for a repeat, with a worker that
      returns, has the loop return a run waiting for a human once the fuel
      exceeds the retries left, the counter at its maximum. *)
Theorem retry_budget_on_repeat_edges :
  (forall selectArtifactsForStep buildExecutionContext writeOk updateState
          t pc wf tid fuel w state step e,
     runs w !! tid = Some state ->
     loopGuard (status state) = true ->
     lookupStep wf (currentStepId state) = Some step ->
     run (getAgentByRole (registry w) (agentRole step))
         {| task := t;
            artifacts := selectArtifactsForStep step t (artifactStore w);
            context := buildExecutionContext pc |} = Throw e ->
     let r := loop selectArtifactsForStep buildExecutionContext writeOk updateState
                   t pc wf tid (S fuel) w in
     snd r = Throw e /\
     runs (fst r) = runs w /\
     events (fst r) = (events w ++ [WorkerInvoked (step_id step) (agentRole step)])%list) /\
  (forall wf maxRetries tid, Engine.withinBudget wf maxRetries (freshRunState tid wf)) /\
  (forall selectArtifactsForStep buildExecutionContext writeOk
          t pc wf maxRetries tid fuel w state,
     runs w !! tid = Some state ->
     Engine.withinBudget wf maxRetries state ->
     exists state',
       runs (fst (loop selectArtifactsForStep buildExecutionContext writeOk
                    (Engine.updateState wf maxRetries) t pc wf tid fuel w)) !! tid
       = Some state' /\
       Engine.withinBudget wf maxRetries state') /\
  (forall selectArtifactsForStep buildExecutionContext writeOk
          t pc wf maxRetries tid fuel w state step out,
     runs w !! tid = Some state ->
     loopGuard (status state) = true ->
     lookupStep wf (currentStepId state) = Some step ->
     run (getAgentByRole (registry w) (agentRole step))
         {| task := t;
            artifacts := selectArtifactsForStep step t (artifactStore w);
            context := buildExecutionContext pc |} = Ok out ->
     forallb writeOk (newArtifacts out) = true ->
     Engine.repeatEdge state (transition step out) ->
     (Z.of_nat (maxRetries step) < retryCount state (currentStepId state) + 1)%Z ->
     exists st',
       snd (loop selectArtifactsForStep buildExecutionContext writeOk
              (Engine.updateState wf maxRetries) t pc wf tid (S fuel) w) = Ok st' /\
       status st' = waiting_human /\
       retries st' = retries state /\
       history st' =
         (history state ++ [(currentStepId state, RetryBudgetExceeded None)])%list) /\
  (forall selectArtifactsForStep buildExecutionContext writeOk
          t pc wf maxRetries tid fuel w state step,
     runs w !! tid = Some state ->
     status state = in_progress ->
     lookupStep wf (currentStepId state) = Some step ->
     (forall out, nextStepId (transition step out) = Some (currentStepId state) /\
                  decision_status (transition step out) = DInProgress) ->
     (forall input, exists out,
         run (getAgentByRole (registry w) (agentRole step)) input = Ok out /\
         forallb writeOk (newArtifacts out) = true) ->
     (Z.to_nat (Z.of_nat (maxRetries step) - retryCount state (currentStepId state))
      < fuel)%nat ->
     exists st',
       snd (loop selectArtifactsForStep buildExecutionContext writeOk
              (Engine.updateState wf maxRetries) t pc wf tid fuel w) = Ok st' /\
       status st' = waiting_human /\
       retryCount st' (currentStepId state) =
         Z.max (retryCount state (currentStepId state)) (Z.of_nat (maxRetries step))).
Proof.
  split; [|split; [|split; [|split]]].
  - intros sel ctx wr upd t pc wf tid fuel w state step e Hst Hg Hstep Hrun. cbv zeta.
    rewrite (loop_worker_fault sel ctx wr t pc wf tid upd fuel w state step e
               Hst Hg Hstep Hrun).
    repeat split.
  - intros wf maxRetries tid. apply freshRunState_withinBudget.
  - intros sel ctx wr t pc wf maxRetries tid fuel w state. apply loop_withinBudget.
  - intros sel ctx wr t pc wf maxRetries tid fuel w state step out
           Hst Hg Hstep Hrun Hall Hedge Hmax.
    destruct (loop_exhausted_repeat sel ctx wr t pc wf maxRetries tid fuel w state
                step out Hst Hg Hstep Hrun Hall Hedge Hmax) as [w' Hloop].
    eexists. rewrite Hloop. repeat split.
  - intros sel ctx wr t pc wf maxRetries tid fuel w state step
           Hst Hs Hstep Hrule Hagent Hfuel.
    destruct (loop_spinning sel ctx wr t pc wf maxRetries tid step _ fuel w state
                Hst Hs Hstep Hrule Hagent eq_refl Hfuel)
      as (w' & st' & Hloop & Hs' & _ & Hcount).
    exists st'. by rewrite Hloop.
Qed.

(** The Implement step of [spinning-flow] always asks for a repeat: with
    two retries allowed the loop returns after three passes. *)
Lemma retry_budget_on_repeat_edges_witness :
  exists st',
    snd (budgetLoop spinningFlow twoRetries 3
           (worldOf planningAgents (runAt spinningFlow "implement" in_progress)))
    = Ok st' /\
    status st' = waiting_human /\
    retryCount st' "implement" = 2%Z.
Proof.
  destruct (proj2 (proj2 (proj2 (proj2 retry_budget_on_repeat_edges)))
              allArtifactsOfTask sampleContext everyWriteOk bugfixTask sampleProject
              spinningFlow twoRetries "T-1" 3%nat
              (worldOf planningAgents (runAt spinningFlow "implement" in_progress))
              (runAt spinningFlow "implement" in_progress)
              (mkWorkflowStep "implement" "Implement" Coder (alwaysRepeat "implement")))
    as (st' & Hloop & Hs & Hcount).
  - reflexivity.
  - reflexivity.
  - reflexivity.
  - intros out. split; reflexivity.
  - intros input. eexists. split; reflexivity.
  - vm_compute. lia.
  - exists st'. split; [exact Hloop|]. split; [exact Hs|]. exact Hcount.
Defined.
